(** * Task service and chat endpoint of the todo chatbot backend

    A shallow embedding of
      - [backend/src/services/task_integration_service.py]
        (class [TaskIntegrationService]) and
      - [backend/src/api/v1/chat_endpoints.py] (the [chat] handler),
    with the properties the specification states about them.

    The SQLModel session, [uuid.uuid4], [datetime.utcnow] and
    [datetime.fromisoformat] belong to libraries, not to the repository.
    They are modelled as an explicit session state together with an
    environment of oracles: the n-th UUID drawn, the n-th clock reading,
    whether the n-th round trip to the database raises, and the ISO-8601
    parser and printer. *)

From stdpp Require Import base option list strings sorting.
From Stdlib Require Import ZArith Lia Ascii DecimalString.

Local Open Scope string_scope.
Local Open Scope list_scope.
Local Open Scope Z_scope.

(** ** Python values *)

(** The services return [Dict[str, Any]]; a dict literal is kept as the list
    of its items in the order they are written. *)
#[warnings="-register-all"]
Inductive PyVal : Type :=
| VNone
| VBool (b : bool)
| VInt (n : Z)
| VStr (s : string)
| VList (l : list PyVal)
| VDict (d : list (string * PyVal)).

Definition Dict : Type := list (string * PyVal).

(** [d[k]] / [d.get(k)] *)
Fixpoint dict_get (k : string) (d : Dict) : option PyVal :=
  match d with
  | [] => None
  | (k', v) :: d' => if String.eqb k k' then Some v else dict_get k d'
  end.

Definition dict_keys (d : Dict) : list string := d.*1.

(** An exception object; [str e] is [str(e)]. *)
Inductive Exception : Type := Exc (msg : string).

Definition str (e : Exception) : string := let 'Exc m := e in m.

(** Outcome of running a piece of Python: a value, or a raised exception. *)
Inductive Result (A : Type) : Type :=
| Ok (a : A)
| Raise (e : Exception).
Arguments Ok {A} a.
Arguments Raise {A} e.

(** Truthiness of an [Optional[str]]: [None] and [""] are falsy. *)
Definition truthy (o : option string) : bool :=
  match o with
  | Some s => negb (String.eqb s "")
  | None => false
  end.

(** [o or d] on an [Optional[str]]. *)
Definition str_or (o : option string) (d : string) : string :=
  match o with
  | Some s => if String.eqb s "" then d else s
  | None => d
  end.

(** [str(n)] for a non-negative int. *)
Definition str_of_nat (n : nat) : string := NilZero.string_of_uint (Nat.to_uint n).

(** [s.replace('Z', '+00:00')] *)
Fixpoint replace_Z (s : string) : string :=
  match s with
  | EmptyString => EmptyString
  | String c r =>
      if Ascii.eqb c "Z"%char then "+00:00" +:+ replace_Z r
      else String c (replace_Z r)
  end.

Module TaskService.

(** A [datetime] is a point on the time line, in microseconds. *)
Definition datetime : Type := Z.

(** The [Task] table model ([models.task]). Building a row of a table
    model stores the fields as they are given. A UUID is kept in its string
    form, which is what the service compares and returns. *)
Record Task : Type := mkTask {
  id : string;
  user_id : string;
  title : string;
  description : string;
  completed : bool;
  priority : string;
  due_date : option datetime;
  created_at : datetime;
  updated_at : datetime
}.

Definition set_title (v : string) (t : Task) : Task :=
  mkTask (id t) (user_id t) v (description t) (completed t) (priority t)
         (due_date t) (created_at t) (updated_at t).
Definition set_description (v : string) (t : Task) : Task :=
  mkTask (id t) (user_id t) (title t) v (completed t) (priority t)
         (due_date t) (created_at t) (updated_at t).
Definition set_completed (v : bool) (t : Task) : Task :=
  mkTask (id t) (user_id t) (title t) (description t) v (priority t)
         (due_date t) (created_at t) (updated_at t).
Definition set_priority (v : string) (t : Task) : Task :=
  mkTask (id t) (user_id t) (title t) (description t) (completed t) v
         (due_date t) (created_at t) (updated_at t).
Definition set_due_date (v : option datetime) (t : Task) : Task :=
  mkTask (id t) (user_id t) (title t) (description t) (completed t) (priority t)
         v (created_at t) (updated_at t).
Definition set_updated_at (v : datetime) (t : Task) : Task :=
  mkTask (id t) (user_id t) (title t) (description t) (completed t) (priority t)
         (due_date t) (created_at t) v.

(** What the service takes from outside the repository. *)
Record Env : Type := mkEnv {
  (** [uuid.uuid4()]: the n-th identifier drawn *)
  uuid4 : nat → string;
  (** [datetime.utcnow()]: the n-th reading of the clock *)
  utcnow : nat → datetime;
  (** whether the n-th round trip to the database raises, and what *)
  io_fault : nat → option Exception;
  (** [datetime.fromisoformat]; [None] when it raises [ValueError] *)
  fromisoformat : string → option datetime;
  (** [datetime.isoformat] *)
  isoformat : datetime → string
}.

(** A change registered with the session's unit of work. *)
Inductive Write : Type :=
| Insert (t : Task)
| Update (t : Task)
| Delete (t : Task).

(** Whether an object handed to [session.add] is new or was loaded. *)
Inductive ObjState : Type := Transient | Persistent.

(** [self.session]: the committed rows of the task table in insertion
    order, the changes not yet committed, and how often each oracle of
    the environment has been consulted. *)
Record Session : Type := mkSession {
  table : list Task;
  pending : list Write;
  uuid_draws : nat;
  clock_reads : nat;
  io_calls : nat
}.

Definition M (A : Type) : Type := Session → Result A * Session.

Definition ret {A} (a : A) : M A := λ s, (Ok a, s).

Definition bind {A B} (m : M A) (k : A → M B) : M B :=
  λ s, match m s with
       | (Ok a, s') => k a s'
       | (Raise e, s') => (Raise e, s')
       end.

(** [try: body / except Exception as e: handler e] *)
Definition try_except {A} (body : M A) (handler : Exception → M A) : M A :=
  λ s, match body s with
       | (Ok a, s') => (Ok a, s')
       | (Raise e, s') => handler e s'
       end.

#[global] Instance M_ret : MRet M := @ret.
#[global] Instance M_bind : MBind M := λ A B k m, bind m k.

Definition bump_io (s : Session) : Session :=
  mkSession (table s) (pending s) (uuid_draws s) (clock_reads s) (S (io_calls s)).

Definition set_pending (ws : list Write) (s : Session) : Session :=
  mkSession (table s) ws (uuid_draws s) (clock_reads s) (io_calls s).

Definition set_table (rows : list Task) (s : Session) : Session :=
  mkSession rows (pending s) (uuid_draws s) (clock_reads s) (io_calls s).

Section Service.
Context (env : Env).

(** [uuid.uuid4()] *)
Definition uuid4_call : M string :=
  λ s, (Ok (uuid4 env (uuid_draws s)),
        mkSession (table s) (pending s) (S (uuid_draws s)) (clock_reads s) (io_calls s)).

(** [datetime.utcnow()] *)
Definition utcnow_call : M datetime :=
  λ s, (Ok (utcnow env (clock_reads s)),
        mkSession (table s) (pending s) (uuid_draws s) (S (clock_reads s)) (io_calls s)).

(** One round trip to the database: it raises when the environment says
    so, and otherwise yields what [f] computes from the session. *)
Definition round_trip {A} (f : Session → Result A * Session) : M A :=
  λ s, match io_fault env (io_calls s) with
       | Some e => (Raise e, bump_io s)
       | None => f (bump_io s)
       end.

(** [session.exec(select(Task).where(P)).first()] *)
Definition exec_first (P : Task → Prop) `{∀ t, Decision (P t)} : M (option Task) :=
  round_trip (λ s, (Ok (head (filter P (table s))), s)).

(** [ORDER BY created_at DESC]: the row order of the result. *)
Definition newer_first (a b : Task) : Prop := (created_at b ≤ created_at a)%Z.

#[global] Instance newer_first_dec a b : Decision (newer_first a b).
Proof. unfold newer_first. apply _. Defined.

Definition order_by_created_at_desc (rows : list Task) : list Task :=
  merge_sort newer_first rows.

(** [session.exec(select(Task).where(P).order_by(Task.created_at.desc())
    .limit(limit)).all()]; a negative LIMIT is refused by the engine, as
    PostgreSQL does. *)
Definition exec_all_limit (P : Task → Prop) `{∀ t, Decision (P t)} (limit : Z)
  : M (list Task) :=
  round_trip (λ s,
    if limit <? 0 then (Raise (Exc "LIMIT must not be negative"), s)
    else (Ok (take (Z.to_nat limit) (order_by_created_at_desc (filter P (table s)))), s)).

(** [session.add(obj)]: a new object becomes an INSERT, a loaded and
    modified one an UPDATE of its row. *)
Definition session_add (st : ObjState) (t : Task) : M unit :=
  λ s, (Ok (),
        set_pending (pending s ++ [match st with
                                   | Transient => Insert t
                                   | Persistent => Update t
                                   end]) s).

(** [session.delete(obj)] *)
Definition session_delete (t : Task) : M unit :=
  λ s, (Ok (), set_pending (pending s ++ [Delete t]) s).

(** [UPDATE task SET ... WHERE id = t.id] *)
Definition replace_row (t : Task) (rows : list Task) : list Task :=
  (λ r, if decide (id r = id t) then t else r) <$> rows.

(** [DELETE FROM task WHERE id = t.id] *)
Definition delete_row (t : Task) (rows : list Task) : list Task :=
  filter (λ r, id r ≠ id t) rows.

(** The rows after one registered change; [id] is the primary key. *)
Definition apply_write (w : Write) (rows : list Task) : Result (list Task) :=
  match w with
  | Insert t =>
      if bool_decide (Exists (λ r, id r = id t) rows)
      then Raise (Exc "IntegrityError: duplicate key value violates unique constraint")
      else Ok (rows ++ [t])
  | Update t => Ok (replace_row t rows)
  | Delete t => Ok (delete_row t rows)
  end.

Fixpoint flush (ws : list Write) (rows : list Task) : Result (list Task) :=
  match ws with
  | [] => Ok rows
  | w :: ws' =>
      match apply_write w rows with
      | Ok rows' => flush ws' rows'
      | Raise e => Raise e
      end
  end.

(** [session.commit()]: all registered changes reach the table, or none
    does and the exception is raised. *)
Definition session_commit : M unit :=
  round_trip (λ s,
    match flush (pending s) (table s) with
    | Ok rows => (Ok (), set_pending [] (set_table rows s))
    | Raise e => (Raise e, s)
    end).

(** [session.rollback()]: the changes not yet committed are dropped. *)
Definition session_rollback : M unit :=
  λ s, (Ok (), set_pending [] s).

(** [session.refresh(obj)]: the row of [obj] is read again. *)
Definition session_refresh (t : Task) : M Task :=
  round_trip (λ s,
    match head (filter (λ r, id r = id t) (table s)) with
    | Some r => (Ok r, s)
    | None => (Raise (Exc "InvalidRequestError: Could not refresh instance"), s)
    end).

(** An attribute of [obj] read after [session.commit()]: the commit has
    expired the row, so the first read loads it again, one more round trip
    to the database. *)
Definition reload_expired (t : Task) : M Task := session_refresh t.

(** [datetime.fromisoformat(due_date.replace('Z', '+00:00'))] *)
Definition parse_due_date (due_date : string) : option datetime :=
  fromisoformat env (replace_Z due_date).

(** [if due_date: try: task.due_date = ... except: pass] *)
Definition assign_due_date (due_date : option string) (task : Task) : Task :=
  match due_date with
  | Some d =>
      if truthy (Some d) then
        match parse_due_date d with
        | Some dt => set_due_date (Some dt) task
        | None => task
        end
      else task
  | None => task
  end.

(** The envelope built by the [except Exception as e] clauses. *)
Definition failed (what : string) (e : Exception) : Dict :=
  [("success", VBool false);
   ("error", VStr (str e));
   ("message", VStr ("Failed to " +:+ what +:+ ": " +:+ str e))].

Definition not_found : Dict :=
  [("success", VBool false);
   ("message", VStr "Task not found or access denied")].

Definition add_task (user_id' title' : string)
    (description' priority' due_date' : option string) : M Dict :=
  try_except
    (uid ← uuid4_call;
     created ← utcnow_call;
     updated ← utcnow_call;
     let task := mkTask uid user_id' title' (str_or description' "") false
                        (str_or priority' "medium") None created updated in
     let task := assign_due_date due_date' task in
     session_add Transient task;;
     session_commit;;
     task ← session_refresh task;
     mret [("success", VBool true);
          ("task_id", VStr (id task));
          ("title", VStr (title task));
          ("message", VStr ("Task '" +:+ title' +:+ "' added successfully"))])
    (λ e, session_rollback;; mret (failed "add task" e)).

(** [Task.id == task_id, Task.user_id == user_id] *)
Definition owned_by (user_id' task_id' : string) (t : Task) : Prop :=
  id t = task_id' ∧ user_id t = user_id'.

#[global] Instance owned_by_dec u i t : Decision (owned_by u i t).
Proof. unfold owned_by. apply _. Defined.

Definition complete_task (user_id' task_id' : string) : M Dict :=
  try_except
    (found ← exec_first (owned_by user_id' task_id');
     match found with
     | None => mret not_found
     | Some task =>
         now ← utcnow_call;
         let task := set_updated_at now (set_completed true task) in
         session_add Persistent task;;
         session_commit;;
         task ← reload_expired task;
         mret [("success", VBool true);
              ("task_id", VStr (id task));
              ("message", VStr ("Task '" +:+ title task +:+ "' marked as completed"))]
     end)
    (λ e, session_rollback;; mret (failed "complete task" e)).

(** The row of a task as [list_tasks] reports it. *)
Definition task_dict (task : Task) : PyVal :=
  VDict [("id", VStr (id task));
         ("title", VStr (title task));
         ("description", VStr (description task));
         ("completed", VBool (completed task));
         ("priority", VStr (priority task));
         ("due_date", match due_date task with
                      | Some d => VStr (isoformat env d)
                      | None => VNone
                      end)].

(** The [where] clauses of [list_tasks]. *)
Definition listed (user_id' : string) (completed' : option bool) (t : Task) : Prop :=
  user_id t = user_id' ∧
  match completed' with
  | Some c => completed t = c
  | None => True
  end.

#[global] Instance listed_dec u c t : Decision (listed u c t).
Proof. unfold listed. destruct c; apply _. Defined.

Definition list_tasks (user_id' : string) (completed' : option bool) (limit : Z)
  : M Dict :=
  try_except
    (tasks ← exec_all_limit (listed user_id' completed') limit;
     let task_list := task_dict <$> tasks in
     mret [("success", VBool true);
          ("tasks", VList task_list);
          ("count", VInt (Z.of_nat (length task_list)));
          ("message", VStr ("Found " +:+ str_of_nat (length task_list) +:+ " tasks"))])
    (λ e, mret (failed "list tasks" e)).

(** [if v: task.field = v] *)
Definition assign_if (v : option string) (set : string → Task → Task) (task : Task)
  : Task :=
  match v with
  | Some x => if truthy (Some x) then set x task else task
  | None => task
  end.

Definition update_task (user_id' task_id' : string)
    (title' description' priority' due_date' : option string) : M Dict :=
  try_except
    (found ← exec_first (owned_by user_id' task_id');
     match found with
     | None => mret not_found
     | Some task =>
         let task := assign_if title' set_title task in
         let task := assign_if description' set_description task in
         let task := assign_if priority' set_priority task in
         let task := assign_due_date due_date' task in
         now ← utcnow_call;
         let task := set_updated_at now task in
         session_add Persistent task;;
         session_commit;;
         task ← reload_expired task;
         mret [("success", VBool true);
              ("task_id", VStr (id task));
              ("message", VStr ("Task '" +:+ title task +:+ "' updated successfully"))]
     end)
    (λ e, session_rollback;; mret (failed "update task" e)).

Definition delete_task (user_id' task_id' : string) : M Dict :=
  try_except
    (found ← exec_first (owned_by user_id' task_id');
     match found with
     | None => mret not_found
     | Some task =>
         let task_title := title task in
         session_delete task;;
         session_commit;;
         mret [("success", VBool true);
              ("task_id", VStr task_id');
              ("message", VStr ("Task '" +:+ task_title +:+ "' deleted successfully"))]
     end)
    (λ e, session_rollback;; mret (failed "delete task" e)).

(** The next [n] round trips to the database do not raise. *)
Definition quiet (s : Session) (n : nat) : Prop :=
  ∀ k, (k < n)%nat → io_fault env (io_calls s + k) = None.

(** The row [add_task] builds in session [s]. *)
Definition new_task (u ttl : string) (d p due : option string) (s : Session) : Task :=
  assign_due_date due
    (mkTask (uuid4 env (uuid_draws s)) u ttl (str_or d "") false (str_or p "medium")
            None (utcnow env (clock_reads s)) (utcnow env (S (clock_reads s)))).

(** The row [update_task] writes over [t] in session [s]. *)
Definition updated_task (ttl d p due : option string) (s : Session) (t : Task) : Task :=
  set_updated_at (utcnow env (clock_reads s))
    (assign_due_date due
       (assign_if p set_priority
          (assign_if d set_description
             (assign_if ttl set_title t)))).

(** The row [complete_task] writes over [t] in session [s]. *)
Definition completed_task (s : Session) (t : Task) : Task :=
  set_updated_at (utcnow env (clock_reads s)) (set_completed true t).

End Service.

End TaskService.

Module ChatEndpoint.

(** ** Strings of the request *)

(** [str.isspace] on one character; a character is a code point below 256. *)
Definition isspace (c : ascii) : bool :=
  let n := nat_of_ascii c in
  ((9 <=? n) && (n <=? 13) || (28 <=? n) && (n <=? 32)
   || (n =? 133) || (n =? 160))%nat.

(** [s.lstrip()] *)
Fixpoint lstrip (s : string) : string :=
  match s with
  | EmptyString => EmptyString
  | String c r => if isspace c then lstrip r else s
  end.

(** [s.rstrip()] *)
Fixpoint rstrip (s : string) : string :=
  match s with
  | EmptyString => EmptyString
  | String c r =>
      match rstrip r with
      | EmptyString => if isspace c then EmptyString else String c EmptyString
      | r' => String c r'
      end
  end.

(** [s.strip()] *)
Definition strip (s : string) : string := rstrip (lstrip s).

(** Every character of [s] is white space; true of the empty string. *)
Fixpoint whitespace_only (s : string) : bool :=
  match s with
  | EmptyString => true
  | String c r => isspace c && whitespace_only r
  end.

(** ** Requests, responses and errors *)

(** [ChatRequest] *)
Record ChatRequest : Type := mkChatRequest {
  conversation_id : option Z;
  message : string
}.

(** [ToolCall] *)
Record ToolCall : Type := mkToolCall {
  tool : string;
  arguments : Dict;
  result : Dict
}.

(** [ChatResponse]; [response_time], a difference of two floating-point
    wall-clock readings, is left out. *)
Record ChatResponse : Type := mkChatResponse {
  resp_conversation_id : Z;
  response : string;
  tool_calls : list ToolCall
}.

(** What the agent hands back: [ai_result["response"]] and
    [ai_result["tool_calls"]]. *)
Record AIResult : Type := mkAIResult {
  ai_response : string;
  ai_tool_calls : list ToolCall
}.

(** A conversation as the endpoint sees it. *)
Record Conversation : Type := mkConversation {
  id : Z;
  user_id : string
}.

(** One item of the history handed to the agent. *)
Record HistoryItem : Type := mkHistoryItem {
  role : string;
  content : string
}.

(** Modelled from the spec: [core.errors] is not part of the sources. An
    exception is either a [ChatbotError] of some subclass ([cls] names it;
    [InvalidMessageError] is one of them), or any other exception. *)
Inductive PyError : Type :=
| ChatbotError (cls : string) (msg : string)
| OtherError (msg : string).

Definition InvalidMessageError (msg : string) : PyError :=
  ChatbotError "InvalidMessageError" msg.

Definition str_of (e : PyError) : string :=
  match e with
  | ChatbotError _ msg => msg
  | OtherError msg => msg
  end.

(** [fastapi.HTTPException] *)
Record HTTPException : Type := mkHTTPException {
  status_code : Z;
  detail : string
}.

Definition HTTP_500_INTERNAL_SERVER_ERROR : Z := 500.

Inductive Outcome (A : Type) : Type :=
| Value (a : A)
| Throw (e : PyError).
Arguments Value {A} a.
Arguments Throw {A} e.

(** What the handler hands to FastAPI: the response, or the
    [HTTPException] it raises. *)
Inductive Reply : Type :=
| Returned (r : ChatResponse)
| Raised (h : HTTPException).

(** The collaborators of the handler, over a store of type [S]:
    [ChatService], [AIAgentService] and [chatbot_exception_to_http]. None of
    them is part of the sources; the handler is modelled for every
    behaviour they may have. *)
Record Services (S : Type) : Type := mkServices {
  get_conversation : Z → string → S → Outcome Conversation * S;
  create_conversation : string → S → Outcome Conversation * S;
  add_message : Z → string → string → S → Outcome unit * S;
  get_conversation_history : Z → Z → S → Outcome (list HistoryItem) * S;
  process_message : string → list HistoryItem → string → S → Outcome AIResult * S;
  chatbot_exception_to_http : string → string → HTTPException
}.
Arguments get_conversation {S} _ _ _ _.
Arguments create_conversation {S} _ _ _.
Arguments add_message {S} _ _ _ _ _.
Arguments get_conversation_history {S} _ _ _ _.
Arguments process_message {S} _ _ _ _ _.
Arguments chatbot_exception_to_http {S} _ _ _.

(** The calls the handler makes, in the order it makes them. *)
Inductive Call : Type :=
| GetConversation (cid : Z) (user : string)
| CreateConversation (user : string)
| AddMessage (cid : Z) (role content : string)
| GetConversationHistory (cid : Z) (limit : Z)
| ProcessMessage (msg : string) (history : list HistoryItem) (user : string)
| LogChatRequest (user : string) (cid : Z) (msg : string)
| LogAIResponse (user : string) (cid : Z) (resp : string)
| LogError (code msg user : string).

(** The store behind the services, and the calls made so far. *)
Record World (S : Type) : Type := mkWorld {
  store : S;
  trace : list Call
}.
Arguments mkWorld {S} _ _.
Arguments store {S} _.
Arguments trace {S} _.

(** The assistant messages among the calls: conversation and content of
    every [add_message(_, "assistant", _)]. *)
Fixpoint assistant_adds (calls : list Call) : list (Z * string) :=
  match calls with
  | [] => []
  | AddMessage cid role content :: rest =>
      if String.eqb role "assistant" then (cid, content) :: assistant_adds rest
      else assistant_adds rest
  | _ :: rest => assistant_adds rest
  end.

Section Handler.
Context {S : Type} (svc : Services S).

Definition Py (A : Type) : Type := World S → Outcome A * World S.

Definition pure {A} (a : A) : Py A := λ w, (Value a, w).

Definition raise {A} (e : PyError) : Py A := λ w, (Throw e, w).

Definition and_then {A B} (m : Py A) (k : A → Py B) : Py B :=
  λ w, match m w with
       | (Value a, w') => k a w'
       | (Throw e, w') => (Throw e, w')
       end.

#[global] Instance Py_ret : MRet Py := @pure.
#[global] Instance Py_bind : MBind Py := λ A B k m, and_then m k.

(** A call to a collaborator: noted in the trace, then run on the store. *)
Definition call {A} (c : Call) (f : S → Outcome A * S) : Py A :=
  λ w, let '(r, st) := f (store w) in (r, mkWorld st (trace w ++ [c])).

(** A call to the logger. *)
Definition log (c : Call) : Py unit :=
  λ w, (Value (), mkWorld (store w) (trace w ++ [c])).

(** [if request.conversation_id:] is false for [None] and for [0]. *)
Definition resolve_conversation (user_id' : string) (request : ChatRequest)
  : Py Conversation :=
  match conversation_id request with
  | Some cid =>
      if cid =? 0 then call (CreateConversation user_id') (create_conversation svc user_id')
      else call (GetConversation cid user_id') (get_conversation svc cid user_id')
  | None => call (CreateConversation user_id') (create_conversation svc user_id')
  end.

(** The [try] block of [chat]. *)
Definition chat_body (user_id' : string) (request : ChatRequest) : Py ChatResponse :=
  (if String.eqb (message request) "" || (String.length (strip (message request)) =? 0)%nat
   then raise (InvalidMessageError "Message cannot be empty")
   else mret ());;
  conversation ← resolve_conversation user_id' request;
  log (LogChatRequest user_id' (id conversation) (message request));;
  call (AddMessage (id conversation) "user" (message request))
       (add_message svc (id conversation) "user" (message request));;
  history ← call (GetConversationHistory (id conversation) 20)
                 (get_conversation_history svc (id conversation) 20);
  ai_result ← call (ProcessMessage (message request) history user_id')
                   (process_message svc (message request) history user_id');
  (if negb (String.eqb (ai_response ai_result) "")
   then call (AddMessage (id conversation) "assistant" (ai_response ai_result))
             (add_message svc (id conversation) "assistant" (ai_response ai_result))
   else mret ());;
  log (LogAIResponse user_id' (id conversation) (ai_response ai_result));;
  mret (mkChatResponse (id conversation) (ai_response ai_result)
                       (ai_tool_calls ai_result)).

(** [chat]: the [try] block and its two [except] clauses. *)
Definition chat (user_id' : string) (request : ChatRequest)
  : World S → Reply * World S :=
  λ w, match chat_body user_id' request w with
       | (Value r, w') => (Returned r, w')
       | (Throw (ChatbotError cls msg), w') =>
           (Raised (chatbot_exception_to_http svc cls msg), w')
       | (Throw (OtherError msg), w') =>
           (Raised (mkHTTPException HTTP_500_INTERNAL_SERVER_ERROR
                                    ("An error occurred: " +:+ msg)),
            mkWorld (store w') (trace w' ++ [LogError "chat_endpoint_error" msg user_id']))
       end.

End Handler.

End ChatEndpoint.

(** The calls of a whole turn of [chat], as the handler orders them. *)
Module ChatTurn.
Import ChatEndpoint.

(** The call that resolves the conversation: a creation when the request
    carries no conversation id or the id [0], a lookup otherwise. *)
Definition resolve_call (user : string) (request : ChatRequest) : Call :=
  match conversation_id request with
  | Some cid => if cid =? 0 then CreateConversation user else GetConversation cid user
  | None => CreateConversation user
  end.

(** What that call does to the store. *)
Definition resolve_on {S : Type} (svc : Services S) (user : string)
    (request : ChatRequest) : S → Outcome Conversation * S :=
  match conversation_id request with
  | Some cid =>
      if cid =? 0 then create_conversation svc user else get_conversation svc cid user
  | None => create_conversation svc user
  end.


Definition is_log_error (c : Call) : bool :=
  match c with
  | LogError _ _ _ => true
  | _ => false
  end.

End ChatTurn.

Module ConversationEndpoints.

Definition datetime : Type := Z.

(** A conversation row as [ChatService] hands it out. *)
Module Conversation.
Record t : Type := mk {
  id : Z;
  user_id : string;
  created_at : datetime;
  updated_at : datetime
}.
End Conversation.

(** A message row as [ChatService] hands it out. *)
Module Message.
Record t : Type := mk {
  id : Z;
  conversation_id : Z;
  role : string;
  content : string;
  created_at : datetime
}.
End Message.

(** [MessageResponse] *)
Module MessageResponse.
Record t : Type := mk {
  id : Z;
  conversation_id : Z;
  role : string;
  content : string;
  created_at : datetime
}.
End MessageResponse.

(** [ConversationResponse] *)
Module ConversationResponse.
Record t : Type := mk {
  id : Z;
  user_id : string;
  created_at : datetime;
  updated_at : datetime;
  message_count : Z
}.
End ConversationResponse.

(** What a route hands to FastAPI: its value, or the [HTTPException] it
    raises. *)
Inductive Reply (A : Type) : Type :=
| Returned (a : A)
| Raised (h : ChatEndpoint.HTTPException).
Arguments Returned {A} a.
Arguments Raised {A} h.

(** The collaborators of the three routes, over a store of type [S]:
    the methods of [ChatService] and [chatbot_exception_to_http]. None of
    them is part of the sources. *)
Module ChatService.
Record t (S : Type) : Type := mk {
  get_user_conversations :
    string → Z → S → ChatEndpoint.Outcome (list Conversation.t) * S;
  get_conversation_messages :
    Z → Z → S → ChatEndpoint.Outcome (list Message.t) * S;
  get_conversation :
    Z → string → S → ChatEndpoint.Outcome Conversation.t * S;
  delete_conversation :
    Z → string → S → ChatEndpoint.Outcome unit * S;
  chatbot_exception_to_http : string → string → ChatEndpoint.HTTPException
}.
Arguments get_user_conversations {S} _ _ _ _.
Arguments get_conversation_messages {S} _ _ _ _.
Arguments get_conversation {S} _ _ _ _.
Arguments delete_conversation {S} _ _ _ _.
Arguments chatbot_exception_to_http {S} _ _ _.
End ChatService.

(** The calls the routes make, in the order they make them. *)
Inductive Call : Type :=
| GetUserConversations (user : string) (limit : Z)
| GetConversationMessages (cid : Z) (limit : Z)
| GetConversation (cid : Z) (user : string)
| DeleteConversation (cid : Z) (user : string)
| LogChatRequest (user : string) (cid : Z) (msg : string)
| LogError (code msg : string) (context : Dict).

Definition is_fetch (c : Call) : bool :=
  match c with
  | GetConversationMessages _ _ => true
  | _ => false
  end.

Record World (S : Type) : Type := mkWorld {
  store : S;
  trace : list Call
}.
Arguments mkWorld {S} _ _.
Arguments store {S} _.
Arguments trace {S} _.

Section Routes.
Context {S : Type} (chat_service : ChatService.t S).

Definition Py (A : Type) : Type := World S → ChatEndpoint.Outcome A * World S.

Definition pure {A} (a : A) : Py A := λ w, (ChatEndpoint.Value a, w).

Definition and_then {A B} (m : Py A) (k : A → Py B) : Py B :=
  λ w, match m w with
       | (ChatEndpoint.Value a, w') => k a w'
       | (ChatEndpoint.Throw e, w') => (ChatEndpoint.Throw e, w')
       end.

#[global] Instance Py_ret : MRet Py := @pure.
#[global] Instance Py_bind : MBind Py := λ A B k m, and_then m k.

(** A call to [ChatService]: noted in the trace, then run on the store. *)
Definition call {A} (c : Call) (f : S → ChatEndpoint.Outcome A * S) : Py A :=
  λ w, let '(r, st) := f (store w) in (r, mkWorld st (trace w ++ [c])).

(** A call to the logger. *)
Definition log (c : Call) : Py unit :=
  λ w, (ChatEndpoint.Value (), mkWorld (store w) (trace w ++ [c])).

(** The two [except] clauses every route ends with; [code] and [context]
    are what the route passes to [chat_logger.log_error]. *)
Definition guarded {A} (code : string) (context : Dict) (body : Py A)
  : World S → Reply A * World S :=
  λ w, match body w with
       | (ChatEndpoint.Value a, w') => (Returned a, w')
       | (ChatEndpoint.Throw (ChatEndpoint.ChatbotError cls msg), w') =>
           (Raised (ChatService.chatbot_exception_to_http chat_service cls msg), w')
       | (ChatEndpoint.Throw (ChatEndpoint.OtherError msg), w') =>
           (Raised (ChatEndpoint.mkHTTPException
                      ChatEndpoint.HTTP_500_INTERNAL_SERVER_ERROR
                      ("An error occurred: " +:+ msg)),
            mkWorld (store w') (trace w' ++ [LogError code msg context]))
       end.

(** [ConversationResponse(id=conv.id, ..., message_count=n)] *)
Definition conversation_response (conv : Conversation.t) (n : Z)
  : ConversationResponse.t :=
  ConversationResponse.mk (Conversation.id conv) (Conversation.user_id conv)
                          (Conversation.created_at conv) (Conversation.updated_at conv) n.

(** The call that fetches the messages of [conv] to count them. *)
Definition fetch_call (conv : Conversation.t) : Call :=
  GetConversationMessages (Conversation.id conv) 1000.

(** The [for conv in conversations] loop of [list_conversations];
    [response] is the list built so far. *)
Fixpoint count_messages (conversations : list Conversation.t)
    (response : list ConversationResponse.t) : Py (list ConversationResponse.t) :=
  match conversations with
  | [] => mret response
  | conv :: rest =>
      messages ← call (fetch_call conv)
                      (ChatService.get_conversation_messages chat_service
                         (Conversation.id conv) 1000);
      count_messages rest
        (response ++ [conversation_response conv (Z.of_nat (length messages))])
  end.

(** The number of messages each of the conversations has, asked of the
    service one conversation after the other; [None] when a fetch raises. *)
Fixpoint fetch_counts (conversations : list Conversation.t) (st : S)
  : option (list Z * S) :=
  match conversations with
  | [] => Some ([], st)
  | conv :: rest =>
      match ChatService.get_conversation_messages chat_service
              (Conversation.id conv) 1000 st with
      | (ChatEndpoint.Value messages, st') =>
          match fetch_counts rest st' with
          | Some (counts, st'') => Some (Z.of_nat (length messages) :: counts, st'')
          | None => None
          end
      | (ChatEndpoint.Throw _, _) => None
      end
  end.

Definition list_conversations (user_id : string) (limit : Z)
  : World S → Reply (list ConversationResponse.t) * World S :=
  guarded "list_conversations_error" [("user_id", VStr user_id)]
    (conversations ← call (GetUserConversations user_id limit)
                          (ChatService.get_user_conversations chat_service
                             user_id limit);
     count_messages conversations []).

Definition message_response (msg : Message.t) : MessageResponse.t :=
  MessageResponse.mk (Message.id msg) (Message.conversation_id msg) (Message.role msg)
                     (Message.content msg) (Message.created_at msg).

Definition get_conversation_messages (user_id : string) (conversation_id : Z)
    (limit : Z) : World S → Reply (list MessageResponse.t) * World S :=
  guarded "get_messages_error"
    [("user_id", VStr user_id); ("conversation_id", VInt conversation_id)]
    (conversation ← call (GetConversation conversation_id user_id)
                         (ChatService.get_conversation chat_service
                            conversation_id user_id);
     messages ← call (GetConversationMessages conversation_id limit)
                     (ChatService.get_conversation_messages chat_service
                        conversation_id limit);
     mret (message_response <$> messages)).

Definition delete_conversation (user_id : string) (conversation_id : Z)
  : World S → Reply unit * World S :=
  guarded "delete_conversation_error"
    [("user_id", VStr user_id); ("conversation_id", VInt conversation_id)]
    (call (DeleteConversation conversation_id user_id)
          (ChatService.delete_conversation chat_service conversation_id user_id);;
     log (LogChatRequest user_id conversation_id "Conversation deleted");;
     mret ()).

End Routes.

End ConversationEndpoints.

(** * Sample environments and sessions *)

Module Demo.
Import TaskService.

(** Identifiers [task-0], [task-1], ...; a clock that ticks once per
    reading; a database that never fails; a parser that knows one date. *)
Definition env : Env :=
  mkEnv (λ n, "task-" +:+ str_of_nat n)
        (λ n, 1700000000 + Z.of_nat n)
        (λ _, None)
        (λ d, if String.eqb d "2025-01-01T00:00:00+00:00" then Some 1735689600 else None)
        (λ _, "2025-01-01T00:00:00+00:00").

(** As [env], but the second round trip to the database raises. *)
Definition env_second_trip_fails : Env :=
  mkEnv (uuid4 env) (utcnow env)
        (λ n, if (n =? 1)%nat then Some (Exc "server closed the connection unexpectedly")
              else None)
        (fromisoformat env) (isoformat env).

(** As [env], but the third round trip to the database raises. *)
Definition env_third_trip_fails : Env :=
  mkEnv (uuid4 env) (utcnow env)
        (λ n, if (n =? 2)%nat then Some (Exc "server closed the connection unexpectedly")
              else None)
        (fromisoformat env) (isoformat env).

Definition empty_session : Session := mkSession [] [] 0 0 0.

Definition milk : Task :=
  mkTask "a1" "u1" "buy milk" "" false "medium" None 1600000000 1600000000.
Definition report : Task :=
  mkTask "b2" "u2" "write report" "for Friday" false "high" (Some 1735689600)
         1600000005 1600000005.
Definition call_mum : Task :=
  mkTask "c3" "u1" "call mum" "" true "low" None 1600000009 1600000020.

(** A session over three committed rows, of two owners. *)
Definition session : Session := mkSession [milk; report; call_mum] [] 0 0 0.

End Demo.

Module ChatDemo.
Import ChatEndpoint.

(** Modelled from the spec: [ChatService] is not part of the sources. The
    store holds the conversations and, in insertion order, the messages
    with the conversation each belongs to; a new conversation gets the
    next free id. *)
Record ChatStore : Type := mkChatStore {
  conversations : list Conversation;
  messages : list (Z * HistoryItem);
  next_id : Z
}.

Definition find_conversation (cid : Z) (user : string) (st : ChatStore)
  : Outcome Conversation * ChatStore :=
  match filter (λ c, id c = cid ∧ user_id c = user) (conversations st) with
  | c :: _ => (Value c, st)
  | [] => (Throw (ChatbotError "ConversationNotFoundError" "Conversation not found"), st)
  end.

Definition new_conversation (user : string) (st : ChatStore)
  : Outcome Conversation * ChatStore :=
  let c := mkConversation (next_id st) user in
  (Value c, mkChatStore (conversations st ++ [c]) (messages st) (next_id st + 1)).

Definition append_message (cid : Z) (role content : string) (st : ChatStore)
  : Outcome unit * ChatStore :=
  (Value (),
   mkChatStore (conversations st) (messages st ++ [(cid, mkHistoryItem role content)])
               (next_id st)).

(** The [limit] most recent messages of the conversation, oldest first. *)
Definition recent_history (cid : Z) (limit : Z) (st : ChatStore)
  : Outcome (list HistoryItem) * ChatStore :=
  let ms := (filter (λ m, m.1 = cid) (messages st)).*2 in
  (Value (drop (length ms - Z.to_nat limit) ms), st).

(** An agent that confirms every message and asks for no tool. *)
Definition confirming_agent (msg : string) (history : list HistoryItem) (user : string)
    (st : ChatStore) : Outcome AIResult * ChatStore :=
  (Value (mkAIResult ("Noted: " +:+ msg) []), st).

(** An agent that calls a tool and has nothing to say. *)
Definition silent_agent (msg : string) (history : list HistoryItem) (user : string)
    (st : ChatStore) : Outcome AIResult * ChatStore :=
  (Value (mkAIResult ""
            [mkToolCall "list_tasks" [("user_id", VStr user)]
                        [("success", VBool true); ("tasks", VList []);
                         ("count", VInt 0); ("message", VStr "Found 0 tasks")]]),
   st).

Definition to_http (cls msg : string) : HTTPException :=
  mkHTTPException (if String.eqb cls "InvalidMessageError" then 400 else 404) msg.

Definition confirming : Services ChatStore :=
  mkServices ChatStore find_conversation new_conversation append_message recent_history
             confirming_agent to_http.

Definition silent : Services ChatStore :=
  mkServices ChatStore find_conversation new_conversation append_message recent_history
             silent_agent to_http.

Definition empty_world : World ChatStore := mkWorld (mkChatStore [] [] 1) [].

End ChatDemo.

Module ConversationDemo.
Import ConversationEndpoints.

(** Modelled from the spec: [ChatService] is not part of the sources. The
    store holds the conversations and, in insertion order, the messages. *)
Record Store : Type := mkStore {
  conversations : list Conversation.t;
  messages : list Message.t
}.

Definition owned (cid : Z) (user : string) (c : Conversation.t) : Prop :=
  Conversation.id c = cid ∧ Conversation.user_id c = user.

#[global] Instance owned_dec cid user c : Decision (owned cid user c).
Proof. unfold owned. apply _. Defined.

Definition user_conversations (user : string) (limit : Z) (st : Store)
  : ChatEndpoint.Outcome (list Conversation.t) * Store :=
  (ChatEndpoint.Value
     (take (Z.to_nat limit)
           (filter (λ c, Conversation.user_id c = user) (conversations st))),
   st).

Definition conversation_messages (cid : Z) (limit : Z) (st : Store)
  : ChatEndpoint.Outcome (list Message.t) * Store :=
  (ChatEndpoint.Value
     (take (Z.to_nat limit)
           (filter (λ m, Message.conversation_id m = cid) (messages st))),
   st).

Definition find_conversation (cid : Z) (user : string) (st : Store)
  : ChatEndpoint.Outcome Conversation.t * Store :=
  match filter (owned cid user) (conversations st) with
  | c :: _ => (ChatEndpoint.Value c, st)
  | [] =>
      (ChatEndpoint.Throw
         (ChatEndpoint.ChatbotError "ConversationNotFoundError" "Conversation not found"),
       st)
  end.

(** The conversation goes, and its messages with it. *)
Definition remove_conversation (cid : Z) (user : string) (st : Store)
  : ChatEndpoint.Outcome unit * Store :=
  match filter (owned cid user) (conversations st) with
  | _ :: _ =>
      (ChatEndpoint.Value (),
       mkStore (filter (λ c, Conversation.id c ≠ cid) (conversations st))
               (filter (λ m, Message.conversation_id m ≠ cid) (messages st)))
  | [] =>
      (ChatEndpoint.Throw
         (ChatEndpoint.ChatbotError "ConversationNotFoundError" "Conversation not found"),
       st)
  end.

Definition service : ChatService.t Store :=
  ChatService.mk Store user_conversations conversation_messages find_conversation
                 remove_conversation ChatDemo.to_http.

(** A service that fails to fetch the messages of conversation 3. *)
Definition flaky_messages (cid : Z) (limit : Z) (st : Store)
  : ChatEndpoint.Outcome (list Message.t) * Store :=
  if cid =? 3 then (ChatEndpoint.Throw (ChatEndpoint.OtherError "connection reset"), st)
  else conversation_messages cid limit st.

Definition flaky_service : ChatService.t Store :=
  ChatService.mk Store user_conversations flaky_messages find_conversation
                 remove_conversation ChatDemo.to_http.

(** Two conversations of [u1] with two messages and none, one of [u2]. *)
Definition world : World Store :=
  mkWorld
    (mkStore
       [Conversation.mk 1 "u1" 100 130;
        Conversation.mk 2 "u2" 110 110;
        Conversation.mk 3 "u1" 120 120]
       [Message.mk 1 1 "user" "buy milk" 100;
        Message.mk 2 1 "assistant" "Noted: buy milk" 130])
    [].

End ConversationDemo.

(** * Theorems: the task service *)

(** ** Facts about the session *)

Section SessionFacts.
Import TaskService.
Context (env : Env).

Lemma owned_by_head u i rows t :
  head (filter (owned_by u i) rows) = Some t → t ∈ rows ∧ id t = i ∧ user_id t = u.
Proof.
  intros Hh. apply head_Some_elem_of in Hh.
  apply list_elem_of_filter in Hh as [[? ?] ?]. done.
Qed.

(** After the row of a task is rewritten, the same lookup finds the new row. *)
Lemma head_filter_replace u i t t' rows :
  head (filter (owned_by u i) rows) = Some t →
  id t' = id t → user_id t' = user_id t →
  head (filter (owned_by u i) (replace_row t' rows)) = Some t'.
Proof.
  intros Hh Hid Hu.
  destruct (owned_by_head _ _ _ _ Hh) as (_ & Hi & Hown).
  assert (Ht' : owned_by u i t') by (split; congruence).
  clear Hown. revert Hh. unfold replace_row.
  induction rows as [|r rows IH]; [done|].
  rewrite fmap_cons, !filter_cons. intros Hh.
  destruct (decide (id r = id t')) as [Er|Er].
  - rewrite decide_True by done. done.
  - destruct (decide (owned_by u i r)) as [[Hr _]|Hr]; [congruence|].
    by apply IH.
Qed.

(** After the row of a task is rewritten, reading it by its key gives the
    new row. *)
Lemma head_filter_replace_id t t' rows :
  t ∈ rows → id t' = id t →
  head (filter (λ r, id r = id t') (replace_row t' rows)) = Some t'.
Proof.
  intros Hin Hid. unfold replace_row.
  induction rows as [|r rows IH]; [by apply elem_of_nil in Hin|].
  rewrite fmap_cons, filter_cons.
  destruct (decide (id r = id t')) as [Er|Er].
  - by rewrite decide_True.
  - rewrite decide_False by done. apply IH.
    apply elem_of_cons in Hin as [->|Hin]; [congruence|done].
Qed.

(** Rows with another key are not touched by an UPDATE. *)
Lemma replace_row_other t r rows :
  r ∈ rows → id r ≠ id t → r ∈ replace_row t rows.
Proof.
  intros Hin Hne. unfold replace_row. apply list_elem_of_fmap.
  exists r. by rewrite decide_False.
Qed.

Lemma replace_row_length t rows : length (replace_row t rows) = length rows.
Proof. unfold replace_row. by rewrite length_fmap. Qed.

(** After a DELETE no lookup by that key finds a row. *)
Lemma head_filter_delete u t rows :
  head (filter (owned_by u (id t)) (delete_row t rows)) = None.
Proof.
  unfold delete_row. apply head_None.
  induction rows as [|r rows IH]; [done|].
  rewrite filter_cons. case_decide; [|done].
  rewrite filter_cons, decide_False; [done|].
  intros [? _]. done.
Qed.

(** A freshly inserted row is the one a lookup by its key reads back. *)
Lemma head_filter_fresh t rows :
  ¬ Exists (λ r, id r = id t) rows →
  head (filter (λ r, id r = id t) (rows ++ [t])) = Some t.
Proof.
  intros Hfresh. induction rows as [|r rows IH]; simpl.
  - rewrite filter_cons, decide_True by done. done.
  - rewrite filter_cons, decide_False.
    + apply IH. intros Hex. apply Hfresh. by right.
    + intros Hr. apply Hfresh. by left.
Qed.

End SessionFacts.

(** ** Runs of the operations *)

(** Unfolds the monad and the session primitives of an operation. *)
Ltac unfold_op :=
  unfold TaskService.try_except, mbind, TaskService.M_bind, TaskService.bind,
    mret, TaskService.M_ret, TaskService.ret,
    TaskService.exec_first, TaskService.exec_all_limit, TaskService.uuid4_call,
    TaskService.utcnow_call, TaskService.session_add, TaskService.session_delete,
    TaskService.session_commit, TaskService.reload_expired,
    TaskService.session_refresh,
    TaskService.session_rollback, TaskService.round_trip; simpl.

Section Runs.
Import TaskService.
Context (env : Env).

Lemma quiet_here s n : quiet env s (S n) → io_fault env (io_calls s) = None.
Proof. intros Hq. rewrite <- (Nat.add_0_r (io_calls s)). apply Hq. lia. Qed.

Lemma quiet_next s n : quiet env s (S (S n)) → io_fault env (S (io_calls s)) = None.
Proof. intros Hq. rewrite <- Nat.add_1_r. apply Hq. lia. Qed.

Lemma quiet_third s n :
  quiet env s (S (S (S n))) → io_fault env (S (S (io_calls s))) = None.
Proof. intros Hq. rewrite <- (Hq 2%nat) by lia. f_equal. lia. Qed.

Lemma quiet_fewer s n m : (m ≤ n)%nat → quiet env s n → quiet env s m.
Proof. intros Hle Hq k Hk. apply Hq. lia. Qed.

Lemma assign_due_date_id due t : id (assign_due_date env due t) = id t.
Proof.
  unfold assign_due_date. destruct due as [d|]; [|done].
  destruct (truthy (Some d)); [|done]. by destruct (parse_due_date env d).
Qed.

Lemma assign_due_date_user due t : user_id (assign_due_date env due t) = user_id t.
Proof.
  unfold assign_due_date. destruct due as [d|]; [|done].
  destruct (truthy (Some d)); [|done]. by destruct (parse_due_date env d).
Qed.

Lemma assign_if_keys v set t :
  (∀ x r, id (set x r) = id r ∧ user_id (set x r) = user_id r) →
  id (assign_if v set t) = id t ∧ user_id (assign_if v set t) = user_id t.
Proof.
  intros Hset. unfold assign_if. destruct v as [x|]; [|done].
  destruct (truthy (Some x)); [apply Hset|done].
Qed.

Lemma updated_task_keys ttl d p due s t :
  id (updated_task env ttl d p due s t) = id t ∧
  user_id (updated_task env ttl d p due s t) = user_id t.
Proof.
  unfold updated_task. simpl.
  rewrite assign_due_date_id, assign_due_date_user.
  destruct (assign_if_keys p set_priority
              (assign_if d set_description (assign_if ttl set_title t))) as [-> ->]; [done|].
  destruct (assign_if_keys d set_description (assign_if ttl set_title t)) as [-> ->]; [done|].
  by apply assign_if_keys.
Qed.

Lemma add_task_run u ttl d p due s :
  pending s = [] → quiet env s 2 →
  ¬ Exists (λ r, id r = uuid4 env (uuid_draws s)) (table s) →
  add_task env u ttl d p due s =
    (Ok [("success", VBool true);
         ("task_id", VStr (uuid4 env (uuid_draws s)));
         ("title", VStr (title (new_task env u ttl d p due s)));
         ("message", VStr ("Task '" +:+ ttl +:+ "' added successfully"))],
     mkSession (table s ++ [new_task env u ttl d p due s]) []
               (S (uuid_draws s)) (S (S (clock_reads s))) (S (S (io_calls s)))).
Proof.
  intros Hp Hq Hfresh.
  pose proof (quiet_here _ _ Hq) as H0. pose proof (quiet_next _ _ Hq) as H1.
  assert (Hid : id (new_task env u ttl d p due s) = uuid4 env (uuid_draws s))
    by apply assign_due_date_id.
  unfold add_task. unfold_op. rewrite H0, Hp. simpl.
  fold (new_task env u ttl d p due s).
  rewrite bool_decide_false by (by rewrite Hid). simpl. rewrite H1.
  rewrite head_filter_fresh by (by rewrite Hid).
  by rewrite Hid.
Qed.

(** A lookup that finds no row: the three operations answer alike and
    leave the session as it is, one round trip later. *)
Lemma not_found_run u i s :
  io_fault env (io_calls s) = None →
  head (filter (owned_by u i) (table s)) = None →
  complete_task env u i s = (Ok not_found, bump_io s) ∧
  (∀ ttl d p due, update_task env u i ttl d p due s = (Ok not_found, bump_io s)) ∧
  delete_task env u i s = (Ok not_found, bump_io s).
Proof.
  intros H0 Hnone. unfold complete_task, update_task, delete_task. unfold_op.
  rewrite H0, Hnone. done.
Qed.

Lemma complete_task_run u i s t :
  pending s = [] → quiet env s 3 →
  head (filter (owned_by u i) (table s)) = Some t →
  complete_task env u i s =
    (Ok [("success", VBool true);
         ("task_id", VStr (id t));
         ("message", VStr ("Task '" +:+ title t +:+ "' marked as completed"))],
     mkSession (replace_row (completed_task env s t) (table s)) []
               (uuid_draws s) (S (clock_reads s)) (S (S (S (io_calls s))))).
Proof.
  intros Hp Hq Hfound.
  pose proof (quiet_here _ _ Hq) as H0. pose proof (quiet_next _ _ Hq) as H1.
  pose proof (quiet_third _ _ Hq) as H2.
  destruct (owned_by_head _ _ _ _ Hfound) as (Hin & _ & _).
  unfold complete_task. unfold_op. rewrite H0, Hfound. simpl.
  rewrite H1, Hp. simpl. rewrite H2.
  fold (completed_task env s t).
  rewrite (head_filter_replace_id t (completed_task env s t)) by done.
  done.
Qed.

Lemma update_task_run u i ttl d p due s t :
  pending s = [] → quiet env s 3 →
  head (filter (owned_by u i) (table s)) = Some t →
  update_task env u i ttl d p due s =
    (Ok [("success", VBool true);
         ("task_id", VStr (id t));
         ("message", VStr ("Task '" +:+ title (updated_task env ttl d p due s t)
                             +:+ "' updated successfully"))],
     mkSession (replace_row (updated_task env ttl d p due s t) (table s)) []
               (uuid_draws s) (S (clock_reads s)) (S (S (S (io_calls s))))).
Proof.
  intros Hp Hq Hfound.
  pose proof (quiet_here _ _ Hq) as H0. pose proof (quiet_next _ _ Hq) as H1.
  pose proof (quiet_third _ _ Hq) as H2.
  destruct (updated_task_keys ttl d p due s t) as [Hid _].
  destruct (owned_by_head _ _ _ _ Hfound) as (Hin & _ & _).
  unfold update_task. unfold_op. rewrite H0, Hfound. simpl.
  rewrite H1, Hp. simpl. rewrite H2.
  fold (updated_task env ttl d p due s t).
  rewrite (head_filter_replace_id t (updated_task env ttl d p due s t)) by done.
  by rewrite Hid.
Qed.

Lemma delete_task_run u i s t :
  pending s = [] → quiet env s 2 →
  head (filter (owned_by u i) (table s)) = Some t →
  delete_task env u i s =
    (Ok [("success", VBool true);
         ("task_id", VStr i);
         ("message", VStr ("Task '" +:+ title t +:+ "' deleted successfully"))],
     mkSession (delete_row t (table s)) []
               (uuid_draws s) (clock_reads s) (S (S (io_calls s)))).
Proof.
  intros Hp Hq Hfound.
  pose proof (quiet_here _ _ Hq) as H0. pose proof (quiet_next _ _ Hq) as H1.
  unfold delete_task. unfold_op. rewrite H0, Hfound. simpl.
  rewrite H1, Hp. done.
Qed.

End Runs.

(** ** What the specification says of the task operations *)

Section SessionOrder.
Import TaskService.

#[local] Instance newer_first_total : Total newer_first.
Proof. intros a b. unfold newer_first. lia. Qed.

#[local] Instance newer_first_trans : Transitive newer_first.
Proof. intros a b c. unfold newer_first. lia. Qed.

Lemma order_by_created_at_desc_sorted rows :
  StronglySorted newer_first (order_by_created_at_desc rows).
Proof. apply StronglySorted_merge_sort; apply _. Qed.

Lemma order_by_created_at_desc_perm rows : order_by_created_at_desc rows ≡ₚ rows.
Proof. apply merge_sort_Permutation. Qed.

Lemma take_strongly_sorted {A} (R : relation A) n (l : list A) :
  StronglySorted R l → StronglySorted R (take n l).
Proof.
  intros Hs. rewrite <- (take_drop n l) in Hs.
  by apply StronglySorted_app_1_l in Hs.
Qed.

End SessionOrder.

Section TaskClaims.
Import TaskService.
Context (env : Env).

Lemma assign_due_date_unparsable d t :
  parse_due_date env d = None → assign_due_date env (Some d) t = t.
Proof.
  intros Hp. unfold assign_due_date. rewrite Hp. by destruct (truthy (Some d)).
Qed.

(** [assign_due_date] writes the [due_date] field and no other. *)
Lemma assign_due_date_frame due t :
  ∃ v, assign_due_date env due t = set_due_date v t ∧
       (v = due_date t ∨ ∃ d, due = Some d ∧ d ≠ "" ∧ parse_due_date env d = Some (default 0 v)
                               ∧ v = parse_due_date env d).
Proof.
  unfold assign_due_date. destruct due as [d|].
  - destruct (truthy (Some d)) eqn:Ht.
    + destruct (parse_due_date env d) as [dt|] eqn:Hp.
      * exists (Some dt). split; [done|]. right. exists d. repeat split; try done.
        intros ->. done.
      * exists (due_date t). split; [by destruct t|by left].
    + exists (due_date t). split; [by destruct t|by left].
  - exists (due_date t). split; [by destruct t|by left].
Qed.

Lemma new_task_fields u ttl d p due s :
  let t := new_task env u ttl d p due s in
  id t = uuid4 env (uuid_draws s) ∧ user_id t = u ∧ title t = ttl ∧
  description t = str_or d "" ∧ completed t = false ∧ priority t = str_or p "medium" ∧
  created_at t = utcnow env (clock_reads s).
Proof.
  unfold new_task. simpl.
  destruct (assign_due_date_frame due
    (mkTask (uuid4 env (uuid_draws s)) u ttl (str_or d "") false (str_or p "medium")
            None (utcnow env (clock_reads s)) (utcnow env (S (clock_reads s)))))
    as (v & -> & _).
  done.
Qed.

(** C1 (amended): [add_task] makes no check of the title. With an empty
    title, an empty unit of work, a database that answers the commit and the
    refresh, and a fresh identifier, it returns the success envelope and one
    new row with the empty title is stored for the owner. *)
Theorem add_task_stores_empty_title u d p due s :
  pending s = [] → quiet env s 2 →
  ¬ Exists (λ r, id r = uuid4 env (uuid_draws s)) (table s) →
  ∃ t s',
    add_task env u "" d p due s =
      (Ok [("success", VBool true);
           ("task_id", VStr (id t));
           ("title", VStr "");
           ("message", VStr "Task '' added successfully")], s') ∧
    table s' = table s ++ [t] ∧
    title t = "" ∧ user_id t = u ∧ completed t = false.
Proof.
  intros Hp Hq Hfresh.
  destruct (new_task_fields u "" d p due s) as (Hid & Hu & Ht & _ & Hc & _).
  eexists (new_task env u "" d p due s), _. split.
  - rewrite (add_task_run env u "" d p due s Hp Hq Hfresh).
    rewrite Hid, Ht. reflexivity.
  - done.
Qed.

(** C2: when no row matches both the task id and the owner id, and the
    lookup itself goes through, [complete_task], [update_task] and
    [delete_task] all return the same envelope, [not_found], whatever the
    reason for the miss, and the table and the unit of work are as before. *)
Theorem not_found_is_indistinguishable u i s :
  (∀ t, t ∈ table s → ¬ (id t = i ∧ user_id t = u)) →
  io_fault env (io_calls s) = None →
  ∃ s',
    complete_task env u i s = (Ok not_found, s') ∧
    (∀ ttl d p due, update_task env u i ttl d p due s = (Ok not_found, s')) ∧
    delete_task env u i s = (Ok not_found, s') ∧
    table s' = table s ∧ pending s' = pending s ∧
    not_found = [("success", VBool false);
                 ("message", VStr "Task not found or access denied")].
Proof.
  intros Hmiss H0. exists (bump_io s).
  assert (Hnone : head (filter (owned_by u i) (table s)) = None).
  { destruct (head _) as [t|] eqn:Hh; [|done].
    destruct (owned_by_head _ _ _ _ Hh) as (Hin & Hi & Hu).
    by destruct (Hmiss t Hin). }
  destruct (not_found_run env u i s H0 Hnone) as (Hc & Hu & Hd).
  repeat split; done.
Qed.

(** The three ways to miss: the id was never stored, the row belongs to
    another user, or the row was deleted. *)
Lemma miss_when_absent u i (rows : list Task) :
  (∀ t, t ∈ rows → id t ≠ i) → ∀ t, t ∈ rows → ¬ (id t = i ∧ user_id t = u).
Proof. intros Habs t Hin [Hi _]. by apply (Habs t). Qed.

Lemma miss_when_foreign u i (rows : list Task) :
  (∀ t, t ∈ rows → id t = i → user_id t ≠ u) →
  ∀ t, t ∈ rows → ¬ (id t = i ∧ user_id t = u).
Proof. intros Hfor t Hin [Hi Hu]. by apply (Hfor t). Qed.

Lemma miss_after_delete u i s t :
  pending s = [] → quiet env s 2 →
  head (filter (owned_by u i) (table s)) = Some t →
  ∀ r, r ∈ table (delete_task env u i s).2 → ¬ (id r = i ∧ user_id r = u).
Proof.
  intros Hp Hq Hfound r.
  rewrite (delete_task_run env u i s t Hp Hq Hfound). simpl.
  destruct (owned_by_head _ _ _ _ Hfound) as (_ & Hi & _).
  unfold delete_row. rewrite list_elem_of_filter. intros [Hne _] [Hr _]. congruence.
Qed.

(** The fields of the row [update_task] writes, one by one. *)
Lemma updated_task_fields ttl d p due s t :
  let t' := updated_task env ttl d p due s t in
  title t' = match ttl with
             | Some x => if String.eqb x "" then title t else x
             | None => title t
             end ∧
  description t' = match d with
                   | Some x => if String.eqb x "" then description t else x
                   | None => description t
                   end ∧
  priority t' = match p with
                | Some x => if String.eqb x "" then priority t else x
                | None => priority t
                end ∧
  due_date t' = match due with
                | Some x =>
                    if String.eqb x "" then due_date t
                    else match parse_due_date env x with
                         | Some dt => Some dt
                         | None => due_date t
                         end
                | None => due_date t
                end ∧
  completed t' = completed t ∧ created_at t' = created_at t ∧
  updated_at t' = utcnow env (clock_reads s).
Proof.
  unfold updated_task, assign_due_date, assign_if, truthy. simpl.
  destruct ttl as [x|], d as [y|], p as [z|], due as [w|]; simpl;
    repeat match goal with
           | |- context [String.eqb ?a ""] => destruct (String.eqb a ""); simpl
           | |- context [parse_due_date env ?a] => destruct (parse_due_date env a); simpl
           end;
    done.
Qed.

(** C4: a due date that does not parse is dropped. [add_task] and
    [update_task] behave exactly as if no due date had been given. With a
    database that answers, [add_task] succeeds and stores the row, with the
    fields it was given and without a due date; [update_task] succeeds,
    commits the row with the other supplied fields written and a new time
    of last update, and keeps the due date the row had. *)
Theorem unparsable_due_date_is_ignored u i ttl ttl' d p due s :
  parse_due_date env due = None →
  add_task env u ttl d p (Some due) s = add_task env u ttl d p None s ∧
  update_task env u i ttl' d p (Some due) s = update_task env u i ttl' d p None s ∧
  (pending s = [] → quiet env s 2 →
   ¬ Exists (λ r, id r = uuid4 env (uuid_draws s)) (table s) →
   ∃ out s' t,
     add_task env u ttl d p (Some due) s = (Ok out, s') ∧
     dict_get "success" out = Some (VBool true) ∧
     table s' = table s ++ [t] ∧
     user_id t = u ∧ title t = ttl ∧ description t = str_or d "" ∧
     priority t = str_or p "medium" ∧ completed t = false ∧
     due_date t = None) ∧
  (∀ t, pending s = [] → quiet env s 3 →
   head (filter (owned_by u i) (table s)) = Some t →
   ∃ out s' t',
     update_task env u i ttl' d p (Some due) s = (Ok out, s') ∧
     dict_get "success" out = Some (VBool true) ∧
     table s' = replace_row t' (table s) ∧ pending s' = [] ∧
     head (filter (owned_by u i) (table s')) = Some t' ∧
     due_date t' = due_date t ∧
     title t' = match ttl' with
                | Some x => if String.eqb x "" then title t else x
                | None => title t
                end ∧
     description t' = match d with
                      | Some x => if String.eqb x "" then description t else x
                      | None => description t
                      end ∧
     priority t' = match p with
                   | Some x => if String.eqb x "" then priority t else x
                   | None => priority t
                   end ∧
     updated_at t' = utcnow env (clock_reads s)).
Proof.
  intros Hparse. split; [|split; [|split]].
  - unfold add_task. unfold_op. rewrite Hparse.
    by destruct (negb (String.eqb due "")).
  - unfold update_task. unfold_op.
    destruct (io_fault env (io_calls s)); [done|].
    destruct (head (filter (owned_by u i) (table s))); [|done]. simpl.
    rewrite Hparse. by destruct (negb (String.eqb due "")).
  - intros Hp Hq Hfresh.
    rewrite (add_task_run env u ttl d p (Some due) s Hp Hq Hfresh).
    destruct (new_task_fields u ttl d p (Some due) s) as (_ & Hu & Ht & Hd & Hc & Hpr & _).
    eexists _, _, (new_task env u ttl d p (Some due) s). split_and!; try done.
    unfold new_task. by rewrite assign_due_date_unparsable.
  - intros t Hp Hq Hfound.
    rewrite (update_task_run env u i ttl' d p (Some due) s t Hp Hq Hfound).
    destruct (updated_task_keys env ttl' d p (Some due) s t) as [Hid Hu].
    destruct (updated_task_fields ttl' d p (Some due) s t)
      as (Ht & Hd & Hpr & Hdue & _ & _ & Hup).
    eexists _, _, (updated_task env ttl' d p (Some due) s t). split_and!; try done.
    + simpl. by apply head_filter_replace with (t := t).
    + rewrite Hdue. fold (parse_due_date env due). rewrite Hparse.
      by destruct (String.eqb due "").
Qed.

(** C5: with a database that answers and a limit that is not negative,
    [list_tasks] succeeds and reports the first [limit] rows of the owner's
    matching rows sorted by creation time, newest first. Every reported row
    is a row of the owner; there are at most [limit] of them; without a
    filter the completion flag plays no role, with a filter it must agree. *)
Theorem list_tasks_newest_first u c limit s :
  io_fault env (io_calls s) = None → 0 ≤ limit →
  ∃ rows all s',
    list_tasks env u c limit s =
      (Ok [("success", VBool true);
           ("tasks", VList (task_dict env <$> rows));
           ("count", VInt (Z.of_nat (length rows)));
           ("message", VStr ("Found " +:+ str_of_nat (length rows) +:+ " tasks"))],
       s') ∧
    table s' = table s ∧
    rows = take (Z.to_nat limit) all ∧
    StronglySorted newer_first all ∧
    all ≡ₚ filter (listed u c) (table s) ∧
    (∀ t, t ∈ all ↔
          t ∈ table s ∧ user_id t = u ∧
          match c with Some b => completed t = b | None => True end) ∧
    (∀ t, t ∈ rows → t ∈ all) ∧
    StronglySorted newer_first rows ∧
    Z.of_nat (length rows) ≤ limit.
Proof.
  intros H0 Hlim.
  set (all := order_by_created_at_desc (filter (listed u c) (table s))).
  exists (take (Z.to_nat limit) all), all, (bump_io s).
  split_and!; try done.
  - unfold list_tasks. unfold_op. rewrite H0.
    destruct (limit <? 0) eqn:Hneg; [lia|]. simpl.
    fold all. by rewrite length_fmap.
  - apply order_by_created_at_desc_sorted.
  - apply order_by_created_at_desc_perm.
  - intros t. unfold all. rewrite order_by_created_at_desc_perm.
    rewrite list_elem_of_filter. unfold listed. tauto.
  - intros t Hin. apply elem_of_take in Hin as (k & Hk & _).
    by apply list_elem_of_lookup_2 in Hk.
  - apply take_strongly_sorted, order_by_created_at_desc_sorted.
  - rewrite length_take. lia.
Qed.

(** C6: [update_task] on a row of the caller, with a database that answers
    its three round trips, writes exactly the fields
    that were given and are not empty. A field given as the empty string,
    or not given, keeps its stored value; so do the identity, the owner, the
    completion flag and the creation time, and so does every other row. *)
Theorem update_task_is_partial u i ttl d p due s t :
  pending s = [] → quiet env s 3 →
  head (filter (owned_by u i) (table s)) = Some t →
  ∃ out s' t',
    update_task env u i ttl d p due s = (Ok out, s') ∧
    dict_get "success" out = Some (VBool true) ∧
    table s' = replace_row t' (table s) ∧
    head (filter (owned_by u i) (table s')) = Some t' ∧
    title t' = match ttl with
               | Some x => if String.eqb x "" then title t else x
               | None => title t
               end ∧
    description t' = match d with
                     | Some x => if String.eqb x "" then description t else x
                     | None => description t
                     end ∧
    priority t' = match p with
                  | Some x => if String.eqb x "" then priority t else x
                  | None => priority t
                  end ∧
    due_date t' = match due with
                  | Some x =>
                      if String.eqb x "" then due_date t
                      else match parse_due_date env x with
                           | Some dt => Some dt
                           | None => due_date t
                           end
                  | None => due_date t
                  end ∧
    id t' = id t ∧ user_id t' = user_id t ∧
    completed t' = completed t ∧ created_at t' = created_at t ∧
    (∀ r, r ∈ table s → id r ≠ id t → r ∈ table s').
Proof.
  intros Hp Hq Hfound.
  rewrite (update_task_run env u i ttl d p due s t Hp Hq Hfound).
  destruct (updated_task_keys env ttl d p due s t) as [Hid Hu].
  destruct (updated_task_fields ttl d p due s t) as (Ht & Hd & Hpr & Hdue & Hc & Hcr & _).
  eexists _, _, (updated_task env ttl d p due s t). simpl.
  split_and!; try done.
  - by apply head_filter_replace with (t := t).
  - intros r Hin Hne. apply replace_row_other; [done|]. by rewrite Hid.
Qed.

(** C7: [complete_task] twice on a row of the caller, with a database
    that answers the three round trips of each call: both calls report
    success, the row is completed after the
    first call and after the second, and the second call touches nothing but
    the time of the last update. *)
Theorem complete_task_twice u i s t :
  pending s = [] → quiet env s 6 →
  head (filter (owned_by u i) (table s)) = Some t →
  ∃ out1 s1 t1 out2 s2 t2,
    complete_task env u i s = (Ok out1, s1) ∧
    dict_get "success" out1 = Some (VBool true) ∧
    head (filter (owned_by u i) (table s1)) = Some t1 ∧
    completed t1 = true ∧
    complete_task env u i s1 = (Ok out2, s2) ∧
    dict_get "success" out2 = Some (VBool true) ∧
    head (filter (owned_by u i) (table s2)) = Some t2 ∧
    completed t2 = true ∧
    t2 = set_updated_at (updated_at t2) t1.
Proof.
  intros Hp Hq Hfound.
  assert (Hq2 : quiet env s 3) by (intros k Hk; apply Hq; lia).
  pose proof (complete_task_run env u i s t Hp Hq2 Hfound) as Hrun1.
  set (t1 := completed_task env s t) in *.
  set (s1 := mkSession (replace_row t1 (table s)) [] (uuid_draws s)
                       (S (clock_reads s)) (S (S (S (io_calls s))))) in *.
  assert (Hfound1 : head (filter (owned_by u i) (table s1)) = Some t1)
    by (by apply head_filter_replace with (t := t)).
  assert (Hq1 : quiet env s1 3).
  { intros k Hk. rewrite <- (Hq (3 + k)%nat) by lia. f_equal. simpl. lia. }
  pose proof (complete_task_run env u i s1 t1 eq_refl Hq1 Hfound1) as Hrun2.
  set (t2 := completed_task env s1 t1) in *.
  eexists _, s1, t1, _, _, t2. split_and!; try done.
  simpl. by apply head_filter_replace with (t := t1).
Qed.

(** C10: [update_task] with no field given, with a database that answers
    its three round trips, still succeeds on a row of the caller and
    commits: the row keeps every field but the time of the last
    update. And whenever [update_task] reports success, whatever fields were
    given, the stored row carries the clock reading of that call. *)
Theorem update_task_refreshes_updated_at u i s :
  (∀ t, pending s = [] → quiet env s 3 →
        head (filter (owned_by u i) (table s)) = Some t →
        ∃ s',
          update_task env u i None None None None s =
            (Ok [("success", VBool true);
                 ("task_id", VStr (id t));
                 ("message", VStr ("Task '" +:+ title t +:+ "' updated successfully"))],
             s') ∧
          table s' = replace_row (set_updated_at (utcnow env (clock_reads s)) t) (table s) ∧
          pending s' = [] ∧ io_calls s' = S (S (S (io_calls s)))) ∧
  (∀ ttl d p due out s',
        pending s = [] →
        update_task env u i ttl d p due s = (Ok out, s') →
        dict_get "success" out = Some (VBool true) →
        ∃ t t',
          head (filter (owned_by u i) (table s)) = Some t ∧
          table s' = replace_row t' (table s) ∧
          head (filter (owned_by u i) (table s')) = Some t' ∧
          updated_at t' = utcnow env (clock_reads s)).
Proof.
  split.
  - intros t Hp Hq Hfound.
    rewrite (update_task_run env u i None None None None s t Hp Hq Hfound).
    eexists. split_and!; done.
  - intros ttl d p due out s' Hp Hrun Hok.
    unfold update_task in Hrun. revert Hrun. unfold_op.
    destruct (io_fault env (io_calls s)) as [e|].
    { intros [= <- <-]. done. }
    destruct (head (filter (owned_by u i) (table s))) as [t|] eqn:Hfound.
    2: { intros [= <- <-]. done. }
    simpl. destruct (io_fault env (S (io_calls s))) as [e|].
    { intros [= <- <-]. done. }
    rewrite Hp. simpl. fold (updated_task env ttl d p due s t).
    destruct (io_fault env (S (S (io_calls s)))) as [e|].
    { intros [= <- <-]. done. }
    destruct (head (filter _ (replace_row _ _))) as [r|].
    2: { intros [= <- <-]. done. }
    intros [= <- <-]. simpl.
    destruct (updated_task_keys env ttl d p due s t) as [Hid Hu].
    exists t, (updated_task env ttl d p due s t). split_and!; try done.
    by apply head_filter_replace with (t := t).
Qed.

(** ** Exceptions and the unit of work *)

(** No operation lets an exception escape: each returns an envelope. *)
Lemma task_operations_never_raise u i ttl ttl' d p due c limit s :
  (∃ out s', add_task env u ttl d p due s = (Ok out, s')) ∧
  (∃ out s', complete_task env u i s = (Ok out, s')) ∧
  (∃ out s', list_tasks env u c limit s = (Ok out, s')) ∧
  (∃ out s', update_task env u i ttl' d p due s = (Ok out, s')) ∧
  (∃ out s', delete_task env u i s = (Ok out, s')).
Proof.
  split_and!;
    unfold add_task, complete_task, list_tasks, update_task, delete_task, try_except;
    match goal with
    | |- context [match ?body s with _ => _ end] => destruct (body s) as [[a|e] s1]
    end; eauto.
Qed.

(** The envelope of a captured exception has the keys [success], [error]
    and [message], with [success] false. *)
Lemma failed_shape what e :
  dict_keys (failed what e) = ["success"; "error"; "message"] ∧
  dict_get "success" (failed what e) = Some (VBool false) ∧
  dict_get "error" (failed what e) = Some (VStr (str e)).
Proof. done. Qed.

(** [add_task] stores the whole new row or nothing, and leaves the unit of
    work empty; when it reports success the row is stored. *)
Lemma add_task_all_or_nothing u ttl d p due s out s' :
  pending s = [] →
  add_task env u ttl d p due s = (Ok out, s') →
  (table s' = table s ∨ table s' = table s ++ [new_task env u ttl d p due s]) ∧
  pending s' = [] ∧
  (dict_get "success" out = Some (VBool true) →
   table s' = table s ++ [new_task env u ttl d p due s]).
Proof.
  intros Hp. unfold add_task. unfold_op.
  fold (new_task env u ttl d p due s).
  destruct (io_fault env (io_calls s)) as [e|];
    [intros [= <- <-]; simpl; split_and!; [by left|done..]|].
  rewrite Hp. simpl.
  destruct (bool_decide _); simpl;
    [intros [= <- <-]; simpl; split_and!; [by left|done..]|].
  destruct (io_fault env (S (io_calls s))) as [e|];
    [intros [= <- <-]; simpl; split_and!; [by right|done..]|].
  destruct (head _); intros [= <- <-]; simpl; split_and!; (by right) || done.
Qed.

End TaskClaims.

(** ** The claims at sample inputs *)

Section TaskSamples.
Import TaskService.

(** C1, as stated, fails: [add_task] with an empty title on an empty table
    reports success and stores a row whose title is empty. *)
Lemma add_task_empty_title_is_stored :
  add_task Demo.env "u1" "" None None None Demo.empty_session =
    (Ok [("success", VBool true);
         ("task_id", VStr "task-0");
         ("title", VStr "");
         ("message", VStr "Task '' added successfully")],
     mkSession [mkTask "task-0" "u1" "" "" false "medium" None 1700000000 1700000001]
               [] 1 2 2).
Proof. vm_compute. reflexivity. Qed.

Lemma add_task_stores_empty_title_witness :
  ∃ t s',
    add_task Demo.env "u1" "" (Some "no title") None None Demo.session =
      (Ok [("success", VBool true);
           ("task_id", VStr (id t));
           ("title", VStr "");
           ("message", VStr "Task '' added successfully")], s') ∧
    table s' = table Demo.session ++ [t] ∧
    title t = "" ∧ user_id t = "u1" ∧ completed t = false.
Proof.
  apply (add_task_stores_empty_title Demo.env "u1" (Some "no title") None None Demo.session).
  - reflexivity.
  - intros k _. reflexivity.
  - simpl. rewrite !Exists_cons, Exists_nil. simpl.
    intros [H|[H|[H|[]]]]; discriminate H.
Defined.

(** C3 fails here: the commit of [add_task] goes through, the refresh that
    follows raises; the failure envelope is returned and the row stays. *)
Lemma add_task_failure_after_commit_keeps_row :
  add_task Demo.env_second_trip_fails "u1" "buy milk" None None None Demo.empty_session =
    (Ok [("success", VBool false);
         ("error", VStr "server closed the connection unexpectedly");
         ("message",
          VStr "Failed to add task: server closed the connection unexpectedly")],
     mkSession [mkTask "task-0" "u1" "buy milk" "" false "medium" None
                       1700000000 1700000001]
               [] 1 2 2).
Proof. vm_compute. reflexivity. Qed.

Lemma not_found_is_indistinguishable_witness :
  ∃ s',
    complete_task Demo.env "u1" "b2" Demo.session = (Ok not_found, s') ∧
    (∀ ttl d p due, update_task Demo.env "u1" "b2" ttl d p due Demo.session
                    = (Ok not_found, s')) ∧
    delete_task Demo.env "u1" "b2" Demo.session = (Ok not_found, s') ∧
    table s' = table Demo.session ∧ pending s' = pending Demo.session ∧
    not_found = [("success", VBool false);
                 ("message", VStr "Task not found or access denied")].
Proof.
  apply (not_found_is_indistinguishable Demo.env "u1" "b2" Demo.session).
  - intros t Hin [Hi Hu]. simpl in Hin.
    rewrite !elem_of_cons, elem_of_nil in Hin.
    destruct Hin as [->|[->|[->|[]]]]; discriminate.
  - reflexivity.
Defined.

Lemma unparsable_due_date_is_ignored_witness :
  (add_task Demo.env "u1" "pay rent" None None (Some "next friday") Demo.session =
     add_task Demo.env "u1" "pay rent" None None None Demo.session ∧
   update_task Demo.env "u1" "a1" None None None (Some "next friday") Demo.session =
     update_task Demo.env "u1" "a1" None None None None Demo.session) ∧
  (∃ out s' t,
     add_task Demo.env "u1" "pay rent" None None (Some "next friday") Demo.session
       = (Ok out, s') ∧
     dict_get "success" out = Some (VBool true) ∧
     table s' = table Demo.session ++ [t] ∧
     user_id t = "u1" ∧ title t = "pay rent" ∧ description t = "" ∧
     priority t = "medium" ∧ completed t = false ∧ due_date t = None) ∧
  (∃ out s' t',
     update_task Demo.env "u2" "b2" (Some "write the report") None (Some "low")
                 (Some "next friday") Demo.session = (Ok out, s') ∧
     dict_get "success" out = Some (VBool true) ∧
     table s' = replace_row t' (table Demo.session) ∧ pending s' = [] ∧
     head (filter (owned_by "u2" "b2") (table s')) = Some t' ∧
     due_date t' = Some 1735689600 ∧
     title t' = "write the report" ∧
     description t' = "for Friday" ∧
     priority t' = "low" ∧
     updated_at t' = 1700000000).
Proof.
  destruct (unparsable_due_date_is_ignored Demo.env "u1" "a1" "pay rent" None None None
              "next friday" Demo.session eq_refl) as (Hadd & Hupd & Hstored & _).
  destruct (unparsable_due_date_is_ignored Demo.env "u2" "b2" "" (Some "write the report")
              None (Some "low") "next friday" Demo.session eq_refl)
    as (_ & _ & _ & Hkept).
  split_and!.
  - exact Hadd.
  - exact Hupd.
  - apply Hstored.
    + reflexivity.
    + intros k _. reflexivity.
    + simpl. rewrite !Exists_cons, Exists_nil. simpl.
      intros [H|[H|[H|[]]]]; discriminate H.
  - apply (Hkept Demo.report).
    + reflexivity.
    + intros k _. reflexivity.
    + reflexivity.
Defined.

Lemma list_tasks_newest_first_witness :
  ∃ rows all s',
    list_tasks Demo.env "u1" None 20 Demo.session =
      (Ok [("success", VBool true);
           ("tasks", VList (task_dict Demo.env <$> rows));
           ("count", VInt (Z.of_nat (length rows)));
           ("message", VStr ("Found " +:+ str_of_nat (length rows) +:+ " tasks"))],
       s') ∧
    table s' = table Demo.session ∧
    rows = take (Z.to_nat 20) all ∧
    StronglySorted newer_first all ∧
    all ≡ₚ filter (listed "u1" None) (table Demo.session) ∧
    (∀ t, t ∈ all ↔
          t ∈ table Demo.session ∧ user_id t = "u1" ∧ True) ∧
    (∀ t, t ∈ rows → t ∈ all) ∧
    StronglySorted newer_first rows ∧
    Z.of_nat (length rows) ≤ 20.
Proof.
  apply (list_tasks_newest_first Demo.env "u1" None 20 Demo.session).
  - reflexivity.
  - lia.
Defined.

(** What [list_tasks] answers on the sample table: the newer row first. *)
Example list_tasks_sample :
  (list_tasks Demo.env "u1" None 20 Demo.session).1 =
    Ok [("success", VBool true);
        ("tasks",
         VList [VDict [("id", VStr "c3"); ("title", VStr "call mum");
                       ("description", VStr ""); ("completed", VBool true);
                       ("priority", VStr "low"); ("due_date", VNone)];
                VDict [("id", VStr "a1"); ("title", VStr "buy milk");
                       ("description", VStr ""); ("completed", VBool false);
                       ("priority", VStr "medium"); ("due_date", VNone)]]);
        ("count", VInt 2);
        ("message", VStr "Found 2 tasks")].
Proof. vm_compute. reflexivity. Qed.

Lemma update_task_is_partial_witness :
  ∃ out s' t',
    update_task Demo.env "u2" "b2" (Some "") None (Some "low") None Demo.session
      = (Ok out, s') ∧
    dict_get "success" out = Some (VBool true) ∧
    table s' = replace_row t' (table Demo.session) ∧
    head (filter (owned_by "u2" "b2") (table s')) = Some t' ∧
    title t' = "write report" ∧
    description t' = "for Friday" ∧
    priority t' = "low" ∧
    due_date t' = Some 1735689600 ∧
    id t' = "b2" ∧ user_id t' = "u2" ∧
    completed t' = false ∧ created_at t' = 1600000005 ∧
    (∀ r, r ∈ table Demo.session → id r ≠ "b2" → r ∈ table s').
Proof.
  apply (update_task_is_partial Demo.env "u2" "b2" (Some "") None (Some "low") None
           Demo.session Demo.report).
  - reflexivity.
  - intros k _. reflexivity.
  - reflexivity.
Defined.

Lemma complete_task_twice_witness :
  ∃ out1 s1 t1 out2 s2 t2,
    complete_task Demo.env "u1" "a1" Demo.session = (Ok out1, s1) ∧
    dict_get "success" out1 = Some (VBool true) ∧
    head (filter (owned_by "u1" "a1") (table s1)) = Some t1 ∧
    completed t1 = true ∧
    complete_task Demo.env "u1" "a1" s1 = (Ok out2, s2) ∧
    dict_get "success" out2 = Some (VBool true) ∧
    head (filter (owned_by "u1" "a1") (table s2)) = Some t2 ∧
    completed t2 = true ∧
    t2 = set_updated_at (updated_at t2) t1.
Proof.
  apply (complete_task_twice Demo.env "u1" "a1" Demo.session Demo.milk).
  - reflexivity.
  - intros k _. reflexivity.
  - reflexivity.
Defined.

Lemma update_task_refreshes_updated_at_witness :
  (∃ s',
     update_task Demo.env "u1" "a1" None None None None Demo.session =
       (Ok [("success", VBool true);
            ("task_id", VStr "a1");
            ("message", VStr "Task 'buy milk' updated successfully")],
        s') ∧
     table s' = replace_row (set_updated_at 1700000000 Demo.milk) (table Demo.session) ∧
     pending s' = [] ∧ io_calls s' = 3%nat) ∧
  (∃ t t',
     head (filter (owned_by "u1" "a1") (table Demo.session)) = Some t ∧
     table (update_task Demo.env "u1" "a1" (Some "buy oat milk") None None None
              Demo.session).2 = replace_row t' (table Demo.session) ∧
     head (filter (owned_by "u1" "a1")
             (table (update_task Demo.env "u1" "a1" (Some "buy oat milk") None None None
                       Demo.session).2)) = Some t' ∧
     updated_at t' = 1700000000).
Proof.
  destruct (update_task_refreshes_updated_at Demo.env "u1" "a1" Demo.session)
    as [Hbare Hany].
  split.
  - apply (Hbare Demo.milk).
    + reflexivity.
    + intros k _. reflexivity.
    + reflexivity.
  - apply (Hany (Some "buy oat milk") None None None
             [("success", VBool true);
              ("task_id", VStr "a1");
              ("message", VStr "Task 'buy oat milk' updated successfully")]).
    + reflexivity.
    + vm_compute. reflexivity.
    + reflexivity.
Defined.

End TaskSamples.

(** * Theorems: the chat endpoint *)

Section ChatClaims.
Import ChatEndpoint.
Context {S : Type} (svc : Services S).

Lemma lstrip_whitespace_only s : whitespace_only s = true → lstrip s = "".
Proof.
  induction s as [|c r IH]; [done|]. simpl.
  destruct (isspace c); [exact IH|done].
Qed.

Lemma rstrip_empty s : rstrip s = "" → whitespace_only s = true.
Proof.
  induction s as [|c r IH]; [done|]. simpl.
  destruct (rstrip r) eqn:Hr; [|done].
  destruct (isspace c); [intros _; by apply IH|done].
Qed.

Lemma lstrip_whitespace_only_inv s :
  whitespace_only (lstrip s) = true → whitespace_only s = true.
Proof.
  induction s as [|c r IH]; [done|]. simpl.
  destruct (isspace c) eqn:Hc; [exact IH|].
  simpl. by rewrite Hc.
Qed.

(** The test of the handler singles out the messages that are empty or
    made of white space only. *)
Lemma strip_empty_iff s : strip s = "" ↔ whitespace_only s = true.
Proof.
  unfold strip. split.
  - intros Hs. by apply lstrip_whitespace_only_inv, rstrip_empty.
  - intros Hs. by rewrite lstrip_whitespace_only.
Qed.

Lemma is_blank_iff s :
  String.eqb s "" || (String.length (strip s) =? 0)%nat = true ↔ whitespace_only s = true.
Proof.
  rewrite <- strip_empty_iff. split.
  - intros [Hs|Hs]%orb_true_iff.
    + apply String.eqb_eq in Hs as ->. done.
    + apply Nat.eqb_eq in Hs. by destruct (strip s).
  - intros ->. apply orb_true_r.
Qed.

(** C8: a message that is empty or white space only is rejected with
    [InvalidMessageError], handed on as the HTTP error made from it; no
    collaborator is called and the store is what it was. *)
Theorem blank_message_is_rejected user req w :
  whitespace_only (message req) = true →
  chat svc user req w =
    (Raised (chatbot_exception_to_http svc "InvalidMessageError" "Message cannot be empty"),
     w).
Proof.
  intros Hblank. apply is_blank_iff in Hblank.
  unfold chat, chat_body, mbind, Py_bind, and_then.
  rewrite Hblank. done.
Qed.

(** C9: a turn whose collaborators answer returns, and it stores the
    assistant message exactly when the response of the agent is not empty.
    With a non-empty response the handler calls [add_message] with role
    [assistant] and that response, after the user message and the agent,
    and the store is the one that call leaves; with an empty response no
    such call is made, and the user message was stored and the tool calls
    are returned all the same. In every turn, whatever the collaborators
    do, no empty assistant message is stored, and a turn that returns
    stored the assistant message exactly when its response is not empty. *)
Theorem assistant_message_iff_response_nonempty user req w :
  (∀ conv st1 st2 h st3 ai st4,
     whitespace_only (message req) = false →
     ChatTurn.resolve_on svc user req (store w) = (Value conv, st1) →
     add_message svc (id conv) "user" (message req) st1 = (Value (), st2) →
     get_conversation_history svc (id conv) 20 st2 = (Value h, st3) →
     process_message svc (message req) h user st3 = (Value ai, st4) →
     (ai_response ai = "" →
      chat svc user req w =
        (Returned (mkChatResponse (id conv) "" (ai_tool_calls ai)),
         mkWorld st4
           (trace w ++
            [ChatTurn.resolve_call user req;
             LogChatRequest user (id conv) (message req);
             AddMessage (id conv) "user" (message req);
             GetConversationHistory (id conv) 20;
             ProcessMessage (message req) h user;
             LogAIResponse user (id conv) ""]))) ∧
     (ai_response ai ≠ "" →
      ∀ st5,
        add_message svc (id conv) "assistant" (ai_response ai) st4 = (Value (), st5) →
        chat svc user req w =
          (Returned (mkChatResponse (id conv) (ai_response ai) (ai_tool_calls ai)),
           mkWorld st5
             (trace w ++
              [ChatTurn.resolve_call user req;
               LogChatRequest user (id conv) (message req);
               AddMessage (id conv) "user" (message req);
               GetConversationHistory (id conv) 20;
               ProcessMessage (message req) h user;
               AddMessage (id conv) "assistant" (ai_response ai);
               LogAIResponse user (id conv) (ai_response ai)])))) ∧
  ∃ new,
    trace (chat svc user req w).2 = trace w ++ new ∧
    (∀ cid c, (cid, c) ∈ assistant_adds new → c ≠ "") ∧
    (∀ r, (chat svc user req w).1 = Returned r →
          assistant_adds new =
            (if String.eqb (response r) "" then []
             else [(resp_conversation_id r, response r)]) ∧
          AddMessage (resp_conversation_id r) "user" (message req) ∈ new ∧
          ∃ history st ai st',
            ProcessMessage (message req) history user ∈ new ∧
            process_message svc (message req) history user st = (Value ai, st') ∧
            response r = ai_response ai ∧ tool_calls r = ai_tool_calls ai).
Proof.
  split.
  { intros conv st1 st2 h st3 ai st4 Hmsg Hres Huser Hhist Hagent.
    assert (Hgate : String.eqb (message req) ""
                    || (String.length (strip (message req)) =? 0)%nat = false).
    { destruct (_ || _) eqn:Hb; [|done]. apply is_blank_iff in Hb. congruence. }
    assert (Hconv : resolve_conversation svc user req w =
                    (Value conv, mkWorld st1 (trace w ++ [ChatTurn.resolve_call user req]))).
    { unfold resolve_conversation, ChatTurn.resolve_call, ChatTurn.resolve_on, call in *.
      destruct (conversation_id req) as [cid|]; [destruct (cid =? 0)|];
        by rewrite Hres. }
    unfold chat, chat_body, mbind, Py_bind, and_then, mret, Py_ret, pure, raise.
    rewrite Hgate, Hconv. unfold call, log. simpl.
    rewrite Huser. simpl. rewrite Hhist. simpl. rewrite Hagent. simpl.
    split.
    - intros Hempty. rewrite Hempty. simpl. by rewrite <- !app_assoc.
    - intros Hfull st5 Hadd.
      destruct (String.eqb (ai_response ai) "") eqn:Heq;
        [by apply String.eqb_eq in Heq|].
      simpl. rewrite Hadd. simpl. by rewrite <- !app_assoc. }

  unfold chat, chat_body, resolve_conversation, mbind, Py_bind, and_then, mret, Py_ret,
    pure, raise, call, log.
  repeat (case_match; simplify_eq/=).
  all: rewrite <- ?app_assoc; simpl.
  all: first [ eexists; split; [reflexivity|]
             | exists []; split; [by rewrite app_nil_r|] ].
  all: simpl; split.
  all: try (intros cid c Hin; apply elem_of_nil in Hin; done).
  all: try (intros r Hr; discriminate Hr).
  all: try (intros cid c [= -> ->]%list_elem_of_singleton Hc;
            match goal with
            | H : negb _ = true |- _ => rewrite Hc in H; discriminate H
            end).
  all: intros r [= <-]; simpl.
  all: match goal with
       | H : negb (String.eqb ?x "") = _ |- _ =>
           destruct (String.eqb x "") eqn:Hresp; simplify_eq/=
       end.
  all: split; [done|].
  all: split; [repeat constructor|].
  all: match goal with
       | H : process_message _ _ ?h _ ?st = (Value ?ai, ?st') |- _ =>
           exists h, st, ai, st'; split_and!; [repeat constructor|exact H|done..]
       end.
Qed.

End ChatClaims.

(** ** The claims at sample inputs *)

Section ChatSamples.
Import ChatEndpoint.

Lemma blank_message_is_rejected_witness :
  chat ChatDemo.confirming "u1" (mkChatRequest None "  ") ChatDemo.empty_world =
    (Raised (mkHTTPException 400 "Message cannot be empty"), ChatDemo.empty_world).
Proof.
  apply (blank_message_is_rejected ChatDemo.confirming "u1" (mkChatRequest None "  ")
           ChatDemo.empty_world).
  reflexivity.
Defined.

(** A turn with an agent that has something to say, and one with an agent
    that has not. *)
Example confirming_turn :
  chat ChatDemo.confirming "u1" (mkChatRequest None "buy milk") ChatDemo.empty_world =
    (Returned (mkChatResponse 1 "Noted: buy milk" []),
     mkWorld
       (ChatDemo.mkChatStore
          [mkConversation 1 "u1"]
          [(1, mkHistoryItem "user" "buy milk");
           (1, mkHistoryItem "assistant" "Noted: buy milk")] 2)
       [CreateConversation "u1";
        LogChatRequest "u1" 1 "buy milk";
        AddMessage 1 "user" "buy milk";
        GetConversationHistory 1 20;
        ProcessMessage "buy milk" [mkHistoryItem "user" "buy milk"] "u1";
        AddMessage 1 "assistant" "Noted: buy milk";
        LogAIResponse "u1" 1 "Noted: buy milk"]).
Proof. vm_compute. reflexivity. Qed.

Example silent_turn :
  let '(reply, w) :=
    chat ChatDemo.silent "u1" (mkChatRequest None "what is left?") ChatDemo.empty_world in
  (∃ calls, reply = Returned (mkChatResponse 1 "" calls) ∧ length calls = 1%nat) ∧
  ChatDemo.messages (store w) = [(1, mkHistoryItem "user" "what is left?")] ∧
  assistant_adds (trace w) = [].
Proof. vm_compute. split_and!; [eexists; split; reflexivity|reflexivity..]. Qed.

Lemma assistant_message_iff_response_nonempty_witness :
  chat ChatDemo.confirming "u1" (mkChatRequest None "buy milk") ChatDemo.empty_world =
    (Returned (mkChatResponse 1 "Noted: buy milk" []),
     mkWorld
       (ChatDemo.mkChatStore
          [mkConversation 1 "u1"]
          [(1, mkHistoryItem "user" "buy milk");
           (1, mkHistoryItem "assistant" "Noted: buy milk")] 2)
       [CreateConversation "u1";
        LogChatRequest "u1" 1 "buy milk";
        AddMessage 1 "user" "buy milk";
        GetConversationHistory 1 20;
        ProcessMessage "buy milk" [mkHistoryItem "user" "buy milk"] "u1";
        AddMessage 1 "assistant" "Noted: buy milk";
        LogAIResponse "u1" 1 "Noted: buy milk"]) ∧
  chat ChatDemo.silent "u1" (mkChatRequest None "what is left?") ChatDemo.empty_world =
    (Returned (mkChatResponse 1 "" (ai_tool_calls
                 (mkAIResult ""
                    [mkToolCall "list_tasks" [("user_id", VStr "u1")]
                       [("success", VBool true); ("tasks", VList []);
                        ("count", VInt 0); ("message", VStr "Found 0 tasks")]]))),
     mkWorld
       (ChatDemo.mkChatStore
          [mkConversation 1 "u1"]
          [(1, mkHistoryItem "user" "what is left?")] 2)
       [CreateConversation "u1";
        LogChatRequest "u1" 1 "what is left?";
        AddMessage 1 "user" "what is left?";
        GetConversationHistory 1 20;
        ProcessMessage "what is left?" [mkHistoryItem "user" "what is left?"] "u1";
        LogAIResponse "u1" 1 ""]).
Proof.
  split.
  - apply (proj2 (proj1 (assistant_message_iff_response_nonempty ChatDemo.confirming "u1"
                           (mkChatRequest None "buy milk") ChatDemo.empty_world)
                    (mkConversation 1 "u1")
                    (ChatDemo.mkChatStore [mkConversation 1 "u1"] [] 2)
                    (ChatDemo.mkChatStore [mkConversation 1 "u1"]
                       [(1, mkHistoryItem "user" "buy milk")] 2)
                    [mkHistoryItem "user" "buy milk"]
                    (ChatDemo.mkChatStore [mkConversation 1 "u1"]
                       [(1, mkHistoryItem "user" "buy milk")] 2)
                    (mkAIResult "Noted: buy milk" [])
                    (ChatDemo.mkChatStore [mkConversation 1 "u1"]
                       [(1, mkHistoryItem "user" "buy milk")] 2)
                    eq_refl eq_refl eq_refl eq_refl eq_refl)).
    + discriminate.
    + reflexivity.
  - apply (proj1 (proj1 (assistant_message_iff_response_nonempty ChatDemo.silent "u1"
                           (mkChatRequest None "what is left?") ChatDemo.empty_world)
                    (mkConversation 1 "u1")
                    (ChatDemo.mkChatStore [mkConversation 1 "u1"] [] 2)
                    (ChatDemo.mkChatStore [mkConversation 1 "u1"]
                       [(1, mkHistoryItem "user" "what is left?")] 2)
                    [mkHistoryItem "user" "what is left?"]
                    (ChatDemo.mkChatStore [mkConversation 1 "u1"]
                       [(1, mkHistoryItem "user" "what is left?")] 2)
                    (mkAIResult ""
                       [mkToolCall "list_tasks" [("user_id", VStr "u1")]
                          [("success", VBool true); ("tasks", VList []);
                           ("count", VInt 0); ("message", VStr "Found 0 tasks")]])
                    (ChatDemo.mkChatStore [mkConversation 1 "u1"]
                       [(1, mkHistoryItem "user" "what is left?")] 2)
                    eq_refl eq_refl eq_refl eq_refl eq_refl)).
    reflexivity.
Defined.

End ChatSamples.

(** * Further properties of the task service *)

Section TaskRows.
Import TaskService.

(** An UPDATE leaves the keys of the table as they are. *)
Lemma replace_row_ids t rows : id <$> replace_row t rows = id <$> rows.
Proof.
  unfold replace_row. induction rows as [|r rows IH]; [done|].
  rewrite !fmap_cons, IH. by destruct (decide (id r = id t)) as [->|].
Qed.

Lemma delete_row_ids_nodup t rows :
  NoDup (id <$> rows) → NoDup (id <$> delete_row t rows).
Proof.
  unfold delete_row. induction rows as [|r rows IH]; [done|].
  rewrite fmap_cons, NoDup_cons. intros [Hr Hnd].
  rewrite filter_cons. case_decide; [|by apply IH].
  rewrite fmap_cons, NoDup_cons. split; [|by apply IH].
  intros (x & Hx & Hin)%list_elem_of_fmap. apply Hr.
  apply list_elem_of_fmap. exists x. split; [done|].
  by apply list_elem_of_filter in Hin as [_ ?].
Qed.

Lemma insert_row_ids_nodup t rows :
  NoDup (id <$> rows) → ¬ Exists (λ r, id r = id t) rows →
  NoDup (id <$> rows ++ [t]).
Proof.
  intros Hnd Hfresh. rewrite fmap_app. apply NoDup_app. split_and!; [done| |apply NoDup_singleton].
  intros x (r & -> & Hin)%list_elem_of_fmap [= Heq]%list_elem_of_singleton.
  apply Hfresh, Exists_exists. by exists r.
Qed.

(** With unique keys, a key names one row. *)
Lemma unique_key_row (rows : list Task) r t :
  NoDup (id <$> rows) → r ∈ rows → t ∈ rows → id r = id t → r = t.
Proof.
  induction rows as [|x rows IH]; [by intros _ ?%elem_of_nil|].
  rewrite fmap_cons, NoDup_cons. intros [Hx Hnd].
  rewrite !elem_of_cons. intros [->|Hr] [->|Ht] Heq; try done.
  - destruct Hx. rewrite Heq. by apply list_elem_of_fmap_2.
  - destruct Hx. rewrite <- Heq. by apply list_elem_of_fmap_2.
  - by apply IH.
Qed.

(** The rows of the other users. *)
Lemma others_replace_row u t' rows :
  (∀ r, r ∈ rows → id r = id t' → user_id r = u) → user_id t' = u →
  filter (λ r, user_id r ≠ u) (replace_row t' rows) = filter (λ r, user_id r ≠ u) rows.
Proof.
  intros Hown Hu. unfold replace_row.
  induction rows as [|r rows IH]; [done|].
  rewrite fmap_cons, !filter_cons.
  rewrite IH by (intros x Hx; apply Hown; by right).
  destruct (decide (id r = id t')) as [Heq|Hne]; [|done].
  rewrite decide_False by (by intros []).
  rewrite decide_False; [done|]. intros []. apply Hown; [by left|done].
Qed.

Lemma others_delete_row u t rows :
  (∀ r, r ∈ rows → id r = id t → user_id r = u) →
  filter (λ r, user_id r ≠ u) (delete_row t rows) = filter (λ r, user_id r ≠ u) rows.
Proof.
  intros Hown. unfold delete_row.
  induction rows as [|r rows IH]; [done|].
  rewrite !filter_cons.
  specialize (IH (λ x Hx, Hown x (list_elem_of_further _ _ _ Hx))).
  destruct (decide (id r ≠ id t)) as [Hne|Heq].
  - rewrite filter_cons, IH. done.
  - rewrite IH. rewrite decide_False; [done|].
    intros []. apply Hown; [by left|]. by destruct (decide (id r = id t)).
Qed.

End TaskRows.

Section TaskEffects.
Import TaskService.
Context (env : Env).

Lemma list_tasks_run u c limit s :
  io_fault env (io_calls s) = None → 0 ≤ limit →
  list_tasks env u c limit s =
    (let rows := take (Z.to_nat limit)
                      (order_by_created_at_desc (filter (listed u c) (table s))) in
     (Ok [("success", VBool true);
          ("tasks", VList (task_dict env <$> rows));
          ("count", VInt (Z.of_nat (length rows)));
          ("message", VStr ("Found " +:+ str_of_nat (length rows) +:+ " tasks"))],
      bump_io s)).
Proof.
  intros H0 Hlim. unfold list_tasks. unfold_op. rewrite H0.
  destruct (limit <? 0) eqn:Hneg; [lia|]. simpl. by rewrite length_fmap.
Qed.

(** What an operation can have done to the session when it returns. *)
Lemma add_task_effect u ttl d p due s :
  pending s = [] →
  pending (add_task env u ttl d p due s).2 = [] ∧
  (table (add_task env u ttl d p due s).2 = table s ∨
   ¬ Exists (λ r, id r = id (new_task env u ttl d p due s)) (table s) ∧
   table (add_task env u ttl d p due s).2 = table s ++ [new_task env u ttl d p due s]).
Proof.
  intros Hp. unfold add_task. unfold_op.
  fold (new_task env u ttl d p due s).
  destruct (io_fault env (io_calls s)) as [e|]; [by auto|].
  rewrite Hp. simpl.
  destruct (bool_decide _) eqn:Hdup; simpl; [by auto|].
  apply bool_decide_eq_false in Hdup.
  destruct (io_fault env (S (io_calls s))) as [e|]; [by auto|].
  destruct (head _); by auto.
Qed.

Lemma complete_task_effect u i s :
  pending s = [] →
  pending (complete_task env u i s).2 = [] ∧
  (table (complete_task env u i s).2 = table s ∨
   ∃ t, head (filter (owned_by u i) (table s)) = Some t ∧
        table (complete_task env u i s).2 = replace_row (completed_task env s t) (table s)).
Proof.
  intros Hp. unfold complete_task. unfold_op.
  destruct (io_fault env (io_calls s)) as [e|]; [by auto|].
  destruct (head (filter (owned_by u i) (table s))) as [t|]; [|by auto]. simpl.
  destruct (io_fault env (S (io_calls s))) as [e|]; [by auto|].
  rewrite Hp. simpl.
  destruct (io_fault env (S (S (io_calls s)))) as [e|]; simpl;
    [split; [done|]; right; by exists t|].
  destruct (head _); simpl; (split; [done|]; right; by exists t).
Qed.

Lemma update_task_effect u i ttl d p due s :
  pending s = [] →
  pending (update_task env u i ttl d p due s).2 = [] ∧
  (table (update_task env u i ttl d p due s).2 = table s ∨
   ∃ t, head (filter (owned_by u i) (table s)) = Some t ∧
        table (update_task env u i ttl d p due s).2 =
          replace_row (updated_task env ttl d p due s t) (table s)).
Proof.
  intros Hp. unfold update_task. unfold_op.
  destruct (io_fault env (io_calls s)) as [e|]; [by auto|].
  destruct (head (filter (owned_by u i) (table s))) as [t|]; [|by auto]. simpl.
  destruct (io_fault env (S (io_calls s))) as [e|]; [by auto|].
  rewrite Hp. simpl.
  destruct (io_fault env (S (S (io_calls s)))) as [e|]; simpl;
    [split; [done|]; right; by exists t|].
  destruct (head _); simpl; (split; [done|]; right; by exists t).
Qed.

Lemma delete_task_effect u i s :
  pending s = [] →
  pending (delete_task env u i s).2 = [] ∧
  (table (delete_task env u i s).2 = table s ∨
   ∃ t, head (filter (owned_by u i) (table s)) = Some t ∧
        table (delete_task env u i s).2 = delete_row t (table s)).
Proof.
  intros Hp. unfold delete_task. unfold_op.
  destruct (io_fault env (io_calls s)) as [e|]; [by auto|].
  destruct (head (filter (owned_by u i) (table s))) as [t|]; [|by auto]. simpl.
  destruct (io_fault env (S (io_calls s))) as [e|]; [by auto|].
  rewrite Hp. simpl. split; [done|]. right. by exists t.
Qed.

Lemma list_tasks_effect u c limit s :
  table (list_tasks env u c limit s).2 = table s ∧
  pending (list_tasks env u c limit s).2 = pending s.
Proof.
  unfold list_tasks. unfold_op.
  destruct (io_fault env (io_calls s)) as [e|]; [done|].
  by destruct (limit <? 0).
Qed.

End TaskEffects.

Section TaskProperties.
Import TaskService.
Context (env : Env).

(** A task that was added is listed: after a successful [add_task], an
    unfiltered [list_tasks] of the same owner with a limit above the size of
    the table reports the new task, not completed, under the id that
    [add_task] returned. *)
Theorem add_task_then_list_tasks u ttl d p due limit s :
  pending s = [] → quiet env s 3 →
  ¬ Exists (λ r, id r = uuid4 env (uuid_draws s)) (table s) →
  Z.of_nat (length (table s)) < limit →
  ∃ out s1 rows s2 t,
    add_task env u ttl d p due s = (Ok out, s1) ∧
    dict_get "success" out = Some (VBool true) ∧
    dict_get "task_id" out = Some (VStr (id t)) ∧
    list_tasks env u None limit s1 =
      (Ok [("success", VBool true);
           ("tasks", VList (task_dict env <$> rows));
           ("count", VInt (Z.of_nat (length rows)));
           ("message", VStr ("Found " +:+ str_of_nat (length rows) +:+ " tasks"))],
       s2) ∧
    t ∈ rows ∧ title t = ttl ∧ user_id t = u ∧ completed t = false.
Proof.
  intros Hp Hq Hfresh Hlim.
  assert (Hq2 : quiet env s 2) by (intros k Hk; apply Hq; lia).
  pose proof (add_task_run env u ttl d p due s Hp Hq2 Hfresh) as Hadd.
  set (t := new_task env u ttl d p due s) in *.
  set (s1 := mkSession (table s ++ [t]) [] (S (uuid_draws s)) (S (S (clock_reads s)))
                       (S (S (io_calls s)))) in *.
  destruct (new_task_fields env u ttl d p due s) as (Hid & Hu & Ht & _ & Hc & _).
  fold t in Hid, Hu, Ht, Hc.
  assert (H2 : io_fault env (io_calls s1) = None).
  { rewrite <- (Hq 2%nat) by lia. f_equal. simpl. lia. }
  pose proof (list_tasks_run env u None limit s1 H2 ltac:(lia)) as Hlist.
  simpl in Hlist.
  eexists _, s1, _, _, t. split_and!; [exact Hadd|done|by rewrite Hid|exact Hlist| |done..].
  rewrite take_ge.
  - rewrite order_by_created_at_desc_perm. apply list_elem_of_filter.
    split; [done|]. apply elem_of_app. right. by left.
  - rewrite order_by_created_at_desc_perm.
    etrans; [apply length_filter|]. rewrite length_app. simpl. lia.
Qed.

(** A deleted task is gone for everyone: after a successful [delete_task]
    no row carries the id, the rows with other ids are all still there, and
    [complete_task], [update_task] and [delete_task] on that id answer
    [not_found] to any user. *)
Theorem deleted_task_is_gone u i s t :
  pending s = [] → quiet env s 3 →
  head (filter (owned_by u i) (table s)) = Some t →
  ∃ out s1,
    delete_task env u i s = (Ok out, s1) ∧
    dict_get "success" out = Some (VBool true) ∧
    (∀ r, r ∈ table s1 → id r ≠ i) ∧
    (∀ r, r ∈ table s → id r ≠ i → r ∈ table s1) ∧
    ∀ u',
      complete_task env u' i s1 = (Ok not_found, bump_io s1) ∧
      (∀ ttl d p due, update_task env u' i ttl d p due s1 = (Ok not_found, bump_io s1)) ∧
      delete_task env u' i s1 = (Ok not_found, bump_io s1).
Proof.
  intros Hp Hq Hfound.
  assert (Hq2 : quiet env s 2) by (intros k Hk; apply Hq; lia).
  rewrite (delete_task_run env u i s t Hp Hq2 Hfound).
  destruct (owned_by_head _ _ _ _ Hfound) as (_ & Hi & _).
  eexists _, _. split_and!; [done|done| | |]; simpl.
  - intros r [Hne _]%list_elem_of_filter. congruence.
  - intros r Hin Hne. apply list_elem_of_filter. split; [congruence|done].
  - intros u'. apply not_found_run.
    + simpl. rewrite <- (Hq 2%nat) by lia. f_equal. lia.
    + simpl. rewrite <- Hi. apply head_filter_delete.
Qed.

(** Every operation ends with an empty unit of work, whether it committed,
    rolled back or found nothing to do. *)
Theorem unit_of_work_stays_empty u i ttl ttl' d p due c limit s :
  pending s = [] →
  pending (add_task env u ttl d p due s).2 = [] ∧
  pending (complete_task env u i s).2 = [] ∧
  pending (list_tasks env u c limit s).2 = [] ∧
  pending (update_task env u i ttl' d p due s).2 = [] ∧
  pending (delete_task env u i s).2 = [].
Proof.
  intros Hp. split_and!.
  - apply add_task_effect, Hp.
  - apply complete_task_effect, Hp.
  - destruct (list_tasks_effect env u c limit s) as [_ ->]. done.
  - apply update_task_effect, Hp.
  - apply delete_task_effect, Hp.
Qed.

(** No operation made for a user touches the rows of another user: in a
    table with unique ids, the rows of the other users are the same, in the
    same order, after [add_task], [complete_task], [update_task] and
    [delete_task], whatever the arguments and whatever the database does. *)
Theorem other_owners_rows_untouched u i ttl ttl' d p due s :
  pending s = [] → NoDup (id <$> table s) →
  filter (λ r, user_id r ≠ u) (table (add_task env u ttl d p due s).2)
    = filter (λ r, user_id r ≠ u) (table s) ∧
  filter (λ r, user_id r ≠ u) (table (complete_task env u i s).2)
    = filter (λ r, user_id r ≠ u) (table s) ∧
  filter (λ r, user_id r ≠ u) (table (update_task env u i ttl' d p due s).2)
    = filter (λ r, user_id r ≠ u) (table s) ∧
  filter (λ r, user_id r ≠ u) (table (delete_task env u i s).2)
    = filter (λ r, user_id r ≠ u) (table s).
Proof.
  intros Hp Hnd.
  assert (Hone : ∀ t, head (filter (owned_by u i) (table s)) = Some t →
                      ∀ r, r ∈ table s → id r = id t → user_id r = u).
  { intros t Hfound r Hin Heq.
    destruct (owned_by_head _ _ _ _ Hfound) as (Ht & _ & Hu).
    by rewrite (unique_key_row (table s) r t Hnd Hin Ht Heq). }
  split_and!.
  - destruct (add_task_effect env u ttl d p due s Hp) as [_ [->|[_ ->]]]; [done|].
    rewrite filter_app, filter_cons, decide_False, filter_nil, app_nil_r; [done|].
    intros Hne. apply Hne. apply new_task_fields.
  - destruct (complete_task_effect env u i s Hp) as [_ [->|(t & Hfound & ->)]]; [done|].
    destruct (owned_by_head _ _ _ _ Hfound) as (_ & _ & Hu).
    apply others_replace_row; [|done]. intros r Hin Heq. by apply (Hone t).
  - destruct (update_task_effect env u i ttl' d p due s Hp) as [_ [->|(t & Hfound & ->)]];
      [done|].
    destruct (owned_by_head _ _ _ _ Hfound) as (_ & _ & Hu).
    destruct (updated_task_keys env ttl' d p due s t) as [Hid Hu'].
    apply others_replace_row; [|congruence].
    intros r Hin Heq. apply (Hone t); [done..|congruence].
  - destruct (delete_task_effect env u i s Hp) as [_ [->|(t & Hfound & ->)]]; [done|].
    apply others_delete_row. intros r Hin Heq. by apply (Hone t).
Qed.

(** The three operations on a stored task write all of their change or
    none of it. After [complete_task] or [update_task] the table is what it
    was, or it is the table with the caller's row rewritten in full; a
    success envelope means the row was rewritten. After [delete_task] the
    table is what it was when the envelope says failure, and has lost the
    caller's row when it says success. The unit of work is empty either
    way. *)
Theorem mutations_are_all_or_nothing u i ttl d p due s :
  pending s = [] →
  (∀ out s',
     complete_task env u i s = (Ok out, s') →
     pending s' = [] ∧
     (table s' = table s ∨
      ∃ t, head (filter (owned_by u i) (table s)) = Some t ∧
           table s' = replace_row (completed_task env s t) (table s)) ∧
     (dict_get "success" out = Some (VBool true) →
      ∃ t, head (filter (owned_by u i) (table s)) = Some t ∧
           table s' = replace_row (completed_task env s t) (table s))) ∧
  (∀ out s',
     update_task env u i ttl d p due s = (Ok out, s') →
     pending s' = [] ∧
     (table s' = table s ∨
      ∃ t, head (filter (owned_by u i) (table s)) = Some t ∧
           table s' = replace_row (updated_task env ttl d p due s t) (table s)) ∧
     (dict_get "success" out = Some (VBool true) →
      ∃ t, head (filter (owned_by u i) (table s)) = Some t ∧
           table s' = replace_row (updated_task env ttl d p due s t) (table s))) ∧
  (∀ out s',
     delete_task env u i s = (Ok out, s') →
     pending s' = [] ∧
     (dict_get "success" out = Some (VBool false) → table s' = table s) ∧
     (dict_get "success" out = Some (VBool true) →
      ∃ t, head (filter (owned_by u i) (table s)) = Some t ∧
           table s' = delete_row t (table s))).
Proof.
  intros Hp. split_and!; intros out s'.
  - unfold complete_task. unfold_op.
    destruct (io_fault env (io_calls s)) as [e|];
      [intros [= <- <-]; split_and!; by auto|].
    destruct (head (filter (owned_by u i) (table s))) as [t|];
      [|intros [= <- <-]; split_and!; by auto].
    simpl. destruct (io_fault env (S (io_calls s))) as [e|];
      [intros [= <- <-]; split_and!; by auto|].
    rewrite Hp. simpl. fold (completed_task env s t).
    destruct (io_fault env (S (S (io_calls s)))) as [e|];
      [intros [= <- <-]; simpl; split_and!; [done|right; by exists t|done]|].
    destruct (head _); intros [= <- <-]; simpl;
      (split_and!; [done|right; by exists t|]); [intros _; by exists t|done].
  - unfold update_task. unfold_op.
    destruct (io_fault env (io_calls s)) as [e|];
      [intros [= <- <-]; split_and!; by auto|].
    destruct (head (filter (owned_by u i) (table s))) as [t|];
      [|intros [= <- <-]; split_and!; by auto].
    simpl. destruct (io_fault env (S (io_calls s))) as [e|];
      [intros [= <- <-]; split_and!; by auto|].
    rewrite Hp. simpl. fold (updated_task env ttl d p due s t).
    destruct (io_fault env (S (S (io_calls s)))) as [e|];
      [intros [= <- <-]; simpl; split_and!; [done|right; by exists t|done]|].
    destruct (head _); intros [= <- <-]; simpl;
      (split_and!; [done|right; by exists t|]); [intros _; by exists t|done].
  - unfold delete_task. unfold_op.
    destruct (io_fault env (io_calls s)) as [e|];
      [intros [= <- <-]; split_and!; by auto|].
    destruct (head (filter (owned_by u i) (table s))) as [t|];
      [|intros [= <- <-]; split_and!; by auto].
    simpl. destruct (io_fault env (S (io_calls s))) as [e|];
      [intros [= <- <-]; split_and!; by auto|].
    rewrite Hp. simpl. intros [= <- <-]. simpl.
    split_and!; [done|done|]. intros _. by exists t.
Qed.

(** [complete_task], with a database that answers its three round trips,
    sets the completion flag and the time of the last
    update of the caller's row and nothing else: every other field of the
    row, the number of rows and every row with another id stay. *)
Theorem complete_task_changes_only_flag u i s t :
  pending s = [] → quiet env s 3 →
  head (filter (owned_by u i) (table s)) = Some t →
  ∃ out s' t',
    complete_task env u i s = (Ok out, s') ∧
    dict_get "success" out = Some (VBool true) ∧
    head (filter (owned_by u i) (table s')) = Some t' ∧
    completed t' = true ∧ updated_at t' = utcnow env (clock_reads s) ∧
    id t' = id t ∧ user_id t' = user_id t ∧ title t' = title t ∧
    description t' = description t ∧ priority t' = priority t ∧
    due_date t' = due_date t ∧ created_at t' = created_at t ∧
    length (table s') = length (table s) ∧
    (∀ r, r ∈ table s → id r ≠ id t → r ∈ table s').
Proof.
  intros Hp Hq Hfound.
  rewrite (complete_task_run env u i s t Hp Hq Hfound).
  eexists _, _, (completed_task env s t). simpl. split_and!; try done.
  - by apply head_filter_replace with (t := t).
  - apply replace_row_length.
  - intros r Hin Hne. by apply replace_row_other.
Qed.

(** [list_tasks] only reads: the table and the unit of work are the same
    after it, whatever happens. When the query goes through with a limit
    that is not negative, [count] is the smaller of the limit and the
    number of rows that match. *)
Theorem list_tasks_reads_and_counts u c limit s :
  table (list_tasks env u c limit s).2 = table s ∧
  pending (list_tasks env u c limit s).2 = pending s ∧
  (io_fault env (io_calls s) = None → 0 ≤ limit →
   ∃ out, (list_tasks env u c limit s).1 = Ok out ∧
          dict_get "success" out = Some (VBool true) ∧
          dict_get "count" out =
            Some (VInt (Z.min limit
                          (Z.of_nat (length (filter (listed u c) (table s))))))).
Proof.
  split_and!; [apply list_tasks_effect..|].
  intros H0 Hlim. rewrite (list_tasks_run env u c limit s H0 Hlim). simpl.
  eexists. split_and!; [done..|]. simpl. do 2 f_equal.
  rewrite length_take, order_by_created_at_desc_perm. lia.
Qed.

(** What [add_task] stores for what it is given: an omitted or empty
    description becomes the empty string, an omitted or empty priority
    becomes [medium], the task is not completed, the two time stamps are the
    two clock readings of the call, and the due date is the parsed one when
    a non-empty due date parses and absent otherwise. *)
Theorem add_task_defaults u ttl d p due s :
  pending s = [] → quiet env s 2 →
  ¬ Exists (λ r, id r = uuid4 env (uuid_draws s)) (table s) →
  ∃ out s' t,
    add_task env u ttl d p due s = (Ok out, s') ∧
    table s' = table s ++ [t] ∧
    id t = uuid4 env (uuid_draws s) ∧ user_id t = u ∧ title t = ttl ∧
    description t = match d with
                    | Some x => x
                    | None => ""
                    end ∧
    priority t = match p with
                 | Some x => if String.eqb x "" then "medium" else x
                 | None => "medium"
                 end ∧
    completed t = false ∧
    created_at t = utcnow env (clock_reads s) ∧
    updated_at t = utcnow env (S (clock_reads s)) ∧
    due_date t = match due with
                 | Some x => if String.eqb x "" then None else parse_due_date env x
                 | None => None
                 end.
Proof.
  intros Hp Hq Hfresh.
  rewrite (add_task_run env u ttl d p due s Hp Hq Hfresh).
  eexists _, _, (new_task env u ttl d p due s). split_and!; try done;
    unfold new_task, assign_due_date, truthy, str_or; simpl;
    repeat match goal with
           | |- context [match ?o with Some _ => _ | None => _ end] =>
               destruct o eqn:?; simpl
           | |- context [String.eqb ?a ""] => destruct (String.eqb a "") eqn:?; simpl
           end; try done.
  all: match goal with
       | H : String.eqb _ "" = true |- _ => by apply String.eqb_eq in H as ->
       end.
Qed.

End TaskProperties.

(** * Further properties of the chat endpoint *)

Section ChatProperties.
Import ChatEndpoint ChatTurn.
Context {S : Type} (svc : Services S).






(** A message that is not blank gets past the validation: the handler goes
    on to resolve the conversation. It creates one when the request carries
    no conversation id or the id [0], and looks the id up otherwise. *)
Theorem nonblank_message_reaches_resolution user req w :
  whitespace_only (message req) = false →
  ∃ rest,
    trace (chat svc user req w).2 =
      trace w ++
      match conversation_id req with
      | Some cid => if cid =? 0 then CreateConversation user else GetConversation cid user
      | None => CreateConversation user
      end :: rest.
Proof.
  intros Hmsg.
  assert (Hgate : String.eqb (message req) ""
                  || (String.length (strip (message req)) =? 0)%nat = false).
  { destruct (_ || _) eqn:Hb; [|done]. apply is_blank_iff in Hb. congruence. }
  unfold chat, chat_body, resolve_conversation, mbind, Py_bind, and_then, mret, Py_ret,
    pure, raise, call, log.
  rewrite Hgate.
  repeat (case_match; simplify_eq/=).
  all: rewrite <- ?app_assoc; simpl.
  all: eexists; reflexivity.
Qed.

(** A conversation that cannot be looked up stops the turn at once: when
    [get_conversation] raises, no message is stored and the agent is not
    called; the only call made is the lookup, and one [log_error] when the
    failure is not a [ChatbotError]. *)
Theorem unresolved_conversation_stores_nothing user req w cid e st :
  whitespace_only (message req) = false →
  conversation_id req = Some cid → cid ≠ 0 →
  get_conversation svc cid user (store w) = (Throw e, st) →
  chat svc user req w =
    match e with
    | ChatbotError cls msg =>
        (Raised (chatbot_exception_to_http svc cls msg),
         mkWorld st (trace w ++ [GetConversation cid user]))
    | OtherError msg =>
        (Raised (mkHTTPException 500 ("An error occurred: " +:+ msg)),
         mkWorld st (trace w ++ [GetConversation cid user;
                                 LogError "chat_endpoint_error" msg user]))
    end.
Proof.
  intros Hmsg Hcid Hne Hget.
  assert (Hgate : String.eqb (message req) ""
                  || (String.length (strip (message req)) =? 0)%nat = false).
  { destruct (_ || _) eqn:Hb; [|done]. apply is_blank_iff in Hb. congruence. }
  unfold chat, chat_body, resolve_conversation, mbind, Py_bind, and_then, mret, Py_ret,
    pure, raise, call, log.
  rewrite Hgate, Hcid. simpl.
  destruct (cid =? 0) eqn:Hz; [lia|]. rewrite Hget.
  destruct e; simpl; [done|]. by rewrite <- app_assoc.
Qed.

End ChatProperties.

(** * Properties of the conversation endpoints *)

Section ConversationProperties.
Import ConversationEndpoints.
Import ChatEndpoint (Value, Throw, ChatbotError, OtherError, mkHTTPException).
Context {St : Type} (svc : ChatService.t St).

(** The loop, against the counts the service gives one after the other. *)
Lemma count_messages_value convs : ∀ acc w out w',
  count_messages svc convs acc w = (Value out, w') →
  ∃ counts,
    fetch_counts svc convs (store w) = Some (counts, store w') ∧
    out = acc ++ zip_with conversation_response convs counts ∧
    trace w' = trace w ++ (fetch_call <$> convs).
Proof.
  induction convs as [|conv convs IH]; intros acc w out w'; simpl.
  - intros [= <- <-]. exists []. by rewrite !app_nil_r.
  - unfold mbind, Py_bind, and_then, call.
    destruct (ChatService.get_conversation_messages svc (Conversation.id conv) 1000
                (store w)) as [[ms|e] st] eqn:Hfetch; [|done].
    intros Hrest. apply IH in Hrest as (counts & Hcounts & -> & ->). simpl in *.
    rewrite Hcounts. exists (Z.of_nat (length ms) :: counts).
    split_and!; [done| |]; simpl; by rewrite <- app_assoc.
Qed.

Lemma count_messages_throw convs : ∀ acc w e w',
  count_messages svc convs acc w = (Throw e, w') →
  ∃ k conv counts st0,
    convs !! k = Some conv ∧
    fetch_counts svc (take k convs) (store w) = Some (counts, st0) ∧
    ChatService.get_conversation_messages svc (Conversation.id conv) 1000 st0
      = (Throw e, store w') ∧
    trace w' = trace w ++ (fetch_call <$> take (S k) convs).
Proof.
  induction convs as [|conv convs IH]; intros acc w e w'; simpl; [done|].
  unfold mbind, Py_bind, and_then, call.
  destruct (ChatService.get_conversation_messages svc (Conversation.id conv) 1000
              (store w)) as [[ms|e'] st] eqn:Hfetch.
  - intros Hrest.
    apply IH in Hrest as (k & c & counts & st0 & Hk & Hcounts & Hfail & ->).
    simpl in *.
    exists (S k), c, (Z.of_nat (length ms) :: counts), st0. simpl.
    rewrite Hfetch, Hcounts. split_and!; try done. by rewrite <- app_assoc.
  - intros [= <- <-]. exists 0%nat, conv, [], (store w). simpl.
    split_and!; try done.
Qed.

Lemma fetch_counts_throw convs : ∀ st k conv counts st0 e st1,
  convs !! k = Some conv →
  fetch_counts svc (take k convs) st = Some (counts, st0) →
  ChatService.get_conversation_messages svc (Conversation.id conv) 1000 st0
    = (Throw e, st1) →
  fetch_counts svc convs st = None.
Proof.
  induction convs as [|c convs IH]; intros st k conv counts st0 e st1; [done|].
  destruct k as [|k]; simpl.
  - intros [= ->] [= <- <-] Hfail. by rewrite Hfail.
  - intros Hk. destruct (ChatService.get_conversation_messages svc _ _ st)
      as [[ms|e'] st2]; [|done].
    destruct (fetch_counts svc (take k convs) st2) as [[ns st3]|] eqn:Hpre; [|done].
    intros [= <- <-] Hfail. by rewrite (IH _ _ _ _ _ _ _ Hk Hpre Hfail).
Qed.

Lemma fetch_counts_length convs : ∀ st counts st',
  fetch_counts svc convs st = Some (counts, st') →
  length counts = length convs ∧ Forall (λ n, 0 ≤ n) counts.
Proof.
  induction convs as [|conv convs IH]; intros st counts st'; simpl.
  - by intros [= <- <-].
  - destruct (ChatService.get_conversation_messages svc _ _ _) as [[ms|e] st1]; [|done].
    destruct (fetch_counts svc convs st1) as [[ns st2]|] eqn:Hrest; [|done].
    intros [= <- <-]. destruct (IH _ _ _ Hrest) as [Hlen Hpos].
    split; [simpl; lia|]. constructor; [lia|done].
Qed.

Lemma conversation_response_ids convs : ∀ counts,
  length counts = length convs →
  ConversationResponse.id <$> zip_with conversation_response convs counts
    = Conversation.id <$> convs.
Proof.
  induction convs as [|c convs IH]; intros [|n counts] Hlen; simpl in *; try done.
  f_equal. apply IH. lia.
Qed.

Lemma conversation_response_counts convs : ∀ counts,
  Forall (λ n, 0 ≤ n) counts →
  Forall (λ r, 0 ≤ ConversationResponse.message_count r)
         (zip_with conversation_response convs counts).
Proof.
  induction convs as [|c convs IH]; intros [|n counts] Hpos; simpl; try done.
  inversion Hpos; subst. constructor; [done|]. by apply IH.
Qed.

(** [list_conversations] answers with one entry per conversation the
    service listed, in the same order and with the same id, owner and time
    stamps; each entry counts the messages that one fetch of that
    conversation, with limit 1000, brought back. It made one such fetch per
    conversation, in order, after the listing, and no other call. *)
Theorem list_conversations_counts_each user limit w resp w' :
  list_conversations svc user limit w = (Returned resp, w') →
  ∃ convs st counts,
    ChatService.get_user_conversations svc user limit (store w) = (Value convs, st) ∧
    fetch_counts svc convs st = Some (counts, store w') ∧
    resp = zip_with conversation_response convs counts ∧
    length resp = length convs ∧
    ConversationResponse.id <$> resp = Conversation.id <$> convs ∧
    Forall (λ r, 0 ≤ ConversationResponse.message_count r) resp ∧
    trace w' = trace w ++ GetUserConversations user limit :: (fetch_call <$> convs).
Proof.
  unfold list_conversations, guarded, mbind, Py_bind, and_then, call.
  destruct (ChatService.get_user_conversations svc user limit (store w))
    as [[convs|e] st] eqn:Hlist.
  2: { by destruct e. }
  destruct (count_messages svc convs [] _) as [[out|e] w1] eqn:Hloop.
  2: { by destruct e. }
  intros [= <- <-].
  apply count_messages_value in Hloop as (counts & Hcounts & -> & ->). simpl in *.
  destruct (fetch_counts_length _ _ _ _ Hcounts) as [Hlen Hpos].
  exists convs, st, counts. split_and!; try done.
  - rewrite length_zip_with. lia.
  - by apply conversation_response_ids.
  - by apply conversation_response_counts.
  - by rewrite <- app_assoc.
Qed.

(** The fetch that raises first is one fetch. *)
Lemma first_failure_unique convs :
  ∀ st k k' conv conv' counts counts' st0 st0' e e' st1 st1',
  convs !! k = Some conv → convs !! k' = Some conv' →
  fetch_counts svc (take k convs) st = Some (counts, st0) →
  fetch_counts svc (take k' convs) st = Some (counts', st0') →
  ChatService.get_conversation_messages svc (Conversation.id conv) 1000 st0
    = (Throw e, st1) →
  ChatService.get_conversation_messages svc (Conversation.id conv') 1000 st0'
    = (Throw e', st1') →
  k = k' ∧ st0 = st0'.
Proof.
  induction convs as [|c convs IH];
    intros st k k' conv conv' counts counts' st0 st0' e e' st1 st1'; [done|].
  destruct k as [|k], k' as [|k']; simpl.
  - by intros _ _ [= _ ->] [= _ ->].
  - intros [= ->] _ [= _ ->] Hpre' Hfail _. by rewrite Hfail in Hpre'.
  - intros _ [= ->] Hpre [= _ ->] _ Hfail'. by rewrite Hfail' in Hpre.
  - intros Hk Hk'.
    destruct (ChatService.get_conversation_messages svc _ _ st)
      as [[ms|e2] st2]; [|done].
    destruct (fetch_counts svc (take k convs) st2) as [[ns st3]|] eqn:Hp1; [|done].
    destruct (fetch_counts svc (take k' convs) st2) as [[ns' st3']|] eqn:Hp2; [|done].
    intros [= _ ->] [= _ ->] Hfail Hfail'.
    destruct (IH _ _ _ _ _ _ _ _ _ _ _ _ _ Hk Hk' Hp1 Hp2 Hfail Hfail') as [-> ->].
    done.
Qed.

(** [list_conversations] gives the whole list or none of it. When the
    fetch of the messages of one conversation raises, after the fetches
    before it went through, the route raises the HTTP error for that
    exception instead of a partial list: the error made from it when it is a
    [ChatbotError], and otherwise the error 500 with one [log_error] as the
    last call. It fetched the messages of the conversations up to that one
    and of no later one. *)
Theorem list_conversations_all_or_nothing user limit w convs st k conv counts st0 e st1 :
  ChatService.get_user_conversations svc user limit (store w) = (Value convs, st) →
  convs !! k = Some conv →
  fetch_counts svc (take k convs) st = Some (counts, st0) →
  ChatService.get_conversation_messages svc (Conversation.id conv) 1000 st0
    = (Throw e, st1) →
  list_conversations svc user limit w =
    match e with
    | ChatbotError cls msg =>
        (Raised (ChatService.chatbot_exception_to_http svc cls msg),
         mkWorld st1
           (trace w ++ GetUserConversations user limit
                       :: (fetch_call <$> take (S k) convs)))
    | OtherError msg =>
        (Raised (mkHTTPException 500 ("An error occurred: " +:+ msg)),
         mkWorld st1
           (trace w ++ GetUserConversations user limit
                       :: (fetch_call <$> take (S k) convs)
                       ++ [LogError "list_conversations_error" msg
                                    [("user_id", VStr user)]]))
    end.
Proof.
  intros Hlist Hk Hpre Hfail.
  pose proof (fetch_counts_throw _ _ _ _ _ _ _ _ Hk Hpre Hfail) as Hnone.
  unfold list_conversations, guarded, mbind, Py_bind, and_then, call.
  rewrite Hlist.
  destruct (count_messages svc convs [] _) as [[out|e'] w1] eqn:Hloop.
  - apply count_messages_value in Hloop as (cs & Hcs & _). simpl in *. congruence.
  - apply count_messages_throw in Hloop
      as (k' & conv' & counts' & st0' & Hk' & Hpre' & Hfail' & Htr).
    simpl in *.
    destruct (first_failure_unique _ _ _ _ _ _ _ _ _ _ _ _ _ _
                Hk Hk' Hpre Hpre' Hfail Hfail') as [<- <-].
    assert (conv' = conv) as -> by congruence.
    rewrite Hfail in Hfail'. injection Hfail' as <- Hst.
    destruct w1 as [st1' tr1]. simpl in *. subst.
    destruct e as [cls msg|msg]; simpl.
    + by rewrite <- app_assoc.
    + by rewrite <- !app_assoc.
Qed.

(** The messages of a conversation are fetched only after the lookup that
    checks the owner went through. When [get_conversation] raises, the route
    raises and the lookup is its only call to the service; when it goes
    through and the fetch returns, the route answers with these messages, in
    their order. *)
Theorem messages_need_ownership_check user cid limit w :
  (∀ e st,
     ChatService.get_conversation svc cid user (store w) = (Throw e, st) →
     get_conversation_messages svc user cid limit w =
       match e with
       | ChatbotError cls msg =>
           (Raised (ChatService.chatbot_exception_to_http svc cls msg),
            mkWorld st (trace w ++ [GetConversation cid user]))
       | OtherError msg =>
           (Raised (mkHTTPException 500 ("An error occurred: " +:+ msg)),
            mkWorld st
              (trace w ++
               [GetConversation cid user;
                LogError "get_messages_error" msg
                         [("user_id", VStr user); ("conversation_id", VInt cid)]]))
       end) ∧
  (∀ resp w',
     get_conversation_messages svc user cid limit w = (Returned resp, w') →
     ∃ conv st msgs,
       ChatService.get_conversation svc cid user (store w) = (Value conv, st) ∧
       ChatService.get_conversation_messages svc cid limit st = (Value msgs, store w') ∧
       resp = message_response <$> msgs ∧
       trace w' = trace w ++ [GetConversation cid user;
                              GetConversationMessages cid limit]).
Proof.
  split.
  - intros e st Hget.
    unfold get_conversation_messages, guarded, mbind, Py_bind, and_then, call.
    rewrite Hget. destruct e; simpl; [done|]. by rewrite <- app_assoc.
  - intros resp w'.
    unfold get_conversation_messages, guarded, mbind, Py_bind, and_then, call,
      mret, Py_ret, pure.
    destruct (ChatService.get_conversation svc cid user (store w))
      as [[conv|e] st] eqn:Hget.
    2: { by destruct e. }
    simpl.
    destruct (ChatService.get_conversation_messages svc cid limit st)
      as [[msgs|e] st1] eqn:Hfetch.
    2: { by destruct e. }
    intros [= <- <-]. exists conv, st, msgs. simpl.
    split_and!; try done. by rewrite <- app_assoc.
Qed.

(** A deletion is logged exactly when it happened: the route logs
    [Conversation deleted] after the service deleted the conversation and
    never when the service raised. *)
Theorem deletion_is_logged_iff_done user cid w :
  LogChatRequest user cid "Conversation deleted"
    ∈ drop (length (trace w)) (trace (delete_conversation svc user cid w).2)
  ↔ (delete_conversation svc user cid w).1 = Returned ().
Proof.
  unfold delete_conversation, guarded, mbind, Py_bind, and_then, call, log,
    mret, Py_ret, pure.
  destruct (ChatService.delete_conversation svc cid user (store w))
    as [[[]|[cls msg|msg]] st]; simpl;
    rewrite <- ?app_assoc, drop_app_length; simpl.
  - split; [done|]. intros _. right. left.
  - split; [|done]. rewrite list_elem_of_singleton. done.
  - split; [|done]. rewrite !elem_of_cons, elem_of_nil. intros [|[|[]]]; done.
Qed.

End ConversationProperties.

(** ** The further properties at sample inputs *)

Section MoreTaskSamples.
Import TaskService.

Lemma add_task_then_list_tasks_witness :
  ∃ out s1 rows s2 t,
    add_task Demo.env "u1" "pay rent" None (Some "high") None Demo.session
      = (Ok out, s1) ∧
    dict_get "success" out = Some (VBool true) ∧
    dict_get "task_id" out = Some (VStr (id t)) ∧
    list_tasks Demo.env "u1" None 20 s1 =
      (Ok [("success", VBool true);
           ("tasks", VList (task_dict Demo.env <$> rows));
           ("count", VInt (Z.of_nat (length rows)));
           ("message", VStr ("Found " +:+ str_of_nat (length rows) +:+ " tasks"))],
       s2) ∧
    t ∈ rows ∧ title t = "pay rent" ∧ user_id t = "u1" ∧ completed t = false.
Proof.
  apply (add_task_then_list_tasks Demo.env "u1" "pay rent" None (Some "high") None 20
           Demo.session).
  - reflexivity.
  - intros k _. reflexivity.
  - simpl. rewrite !Exists_cons, Exists_nil. simpl.
    intros [H|[H|[H|[]]]]; discriminate H.
  - simpl. lia.
Defined.

Lemma deleted_task_is_gone_witness :
  ∃ out s1,
    delete_task Demo.env "u1" "a1" Demo.session = (Ok out, s1) ∧
    dict_get "success" out = Some (VBool true) ∧
    (∀ r, r ∈ table s1 → id r ≠ "a1") ∧
    (∀ r, r ∈ table Demo.session → id r ≠ "a1" → r ∈ table s1) ∧
    ∀ u',
      complete_task Demo.env u' "a1" s1 = (Ok not_found, bump_io s1) ∧
      (∀ ttl d p due,
         update_task Demo.env u' "a1" ttl d p due s1 = (Ok not_found, bump_io s1)) ∧
      delete_task Demo.env u' "a1" s1 = (Ok not_found, bump_io s1).
Proof.
  apply (deleted_task_is_gone Demo.env "u1" "a1" Demo.session Demo.milk).
  - reflexivity.
  - intros k _. reflexivity.
  - reflexivity.
Defined.

Lemma demo_ids_unique : NoDup (id <$> table Demo.session).
Proof.
  simpl. rewrite !NoDup_cons, !elem_of_cons, !elem_of_nil.
  split_and!; try apply NoDup_nil_2; intros H;
    repeat (destruct H as [H|H]; [discriminate H|]); done.
Defined.

Lemma unit_of_work_stays_empty_witness :
  pending (add_task Demo.env_second_trip_fails "u1" "pay rent" None None None
             Demo.session).2 = [] ∧
  pending (complete_task Demo.env_second_trip_fails "u1" "a1" Demo.session).2 = [] ∧
  pending (list_tasks Demo.env_second_trip_fails "u1" None 20 Demo.session).2 = [] ∧
  pending (update_task Demo.env_second_trip_fails "u1" "a1" None None None None
             Demo.session).2 = [] ∧
  pending (delete_task Demo.env_second_trip_fails "u1" "a1" Demo.session).2 = [].
Proof.
  apply (unit_of_work_stays_empty Demo.env_second_trip_fails "u1" "a1" "pay rent" None
           None None None None 20 Demo.session).
  reflexivity.
Defined.

Lemma other_owners_rows_untouched_witness :
  filter (λ r, user_id r ≠ "u1")
         (table (add_task Demo.env "u1" "pay rent" None None None Demo.session).2)
    = [Demo.report] ∧
  filter (λ r, user_id r ≠ "u1")
         (table (complete_task Demo.env "u1" "b2" Demo.session).2)
    = [Demo.report] ∧
  filter (λ r, user_id r ≠ "u1")
         (table (update_task Demo.env "u1" "b2" (Some "mine now") None None None
                   Demo.session).2)
    = [Demo.report] ∧
  filter (λ r, user_id r ≠ "u1")
         (table (delete_task Demo.env "u1" "b2" Demo.session).2)
    = [Demo.report].
Proof.
  apply (other_owners_rows_untouched Demo.env "u1" "b2" "pay rent" (Some "mine now")
           None None None Demo.session).
  - reflexivity.
  - exact demo_ids_unique.
Defined.

Lemma complete_task_changes_only_flag_witness :
  ∃ out s' t',
    complete_task Demo.env "u2" "b2" Demo.session = (Ok out, s') ∧
    dict_get "success" out = Some (VBool true) ∧
    head (filter (owned_by "u2" "b2") (table s')) = Some t' ∧
    completed t' = true ∧ updated_at t' = 1700000000 ∧
    id t' = "b2" ∧ user_id t' = "u2" ∧ title t' = "write report" ∧
    description t' = "for Friday" ∧ priority t' = "high" ∧
    due_date t' = Some 1735689600 ∧ created_at t' = 1600000005 ∧
    length (table s') = 3%nat ∧
    (∀ r, r ∈ table Demo.session → id r ≠ "b2" → r ∈ table s').
Proof.
  apply (complete_task_changes_only_flag Demo.env "u2" "b2" Demo.session Demo.report).
  - reflexivity.
  - intros k _. reflexivity.
  - reflexivity.
Defined.

Lemma list_tasks_reads_and_counts_witness :
  ∃ out, (list_tasks Demo.env "u1" (Some false) 1 Demo.session).1 = Ok out ∧
         dict_get "success" out = Some (VBool true) ∧
         dict_get "count" out = Some (VInt 1).
Proof.
  destruct (list_tasks_reads_and_counts Demo.env "u1" (Some false) 1 Demo.session)
    as (_ & _ & Hcount).
  apply Hcount.
  - reflexivity.
  - lia.
Defined.

Lemma add_task_defaults_witness :
  ∃ out s' t,
    add_task Demo.env "u1" "pay rent" None (Some "")
             (Some "2025-01-01T00:00:00Z") Demo.session = (Ok out, s') ∧
    table s' = table Demo.session ++ [t] ∧
    id t = "task-0" ∧ user_id t = "u1" ∧ title t = "pay rent" ∧
    description t = "" ∧ priority t = "medium" ∧ completed t = false ∧
    created_at t = 1700000000 ∧ updated_at t = 1700000001 ∧
    due_date t = Some 1735689600.
Proof.
  apply (add_task_defaults Demo.env "u1" "pay rent" None (Some "")
           (Some "2025-01-01T00:00:00Z") Demo.session).
  - reflexivity.
  - intros k _. reflexivity.
  - simpl. rewrite !Exists_cons, Exists_nil. simpl.
    intros [H|[H|[H|[]]]]; discriminate H.
Defined.

(** The reload after the commit fails: [complete_task] and [update_task]
    return the failure envelope, and the row is rewritten all the same. *)
Example complete_task_failure_after_commit_keeps_change :
  complete_task Demo.env_third_trip_fails "u1" "a1" Demo.session =
    (Ok [("success", VBool false);
         ("error", VStr "server closed the connection unexpectedly");
         ("message",
          VStr "Failed to complete task: server closed the connection unexpectedly")],
     mkSession
       [mkTask "a1" "u1" "buy milk" "" true "medium" None 1600000000 1700000000;
        Demo.report; Demo.call_mum]
       [] 0 1 3).
Proof. vm_compute. reflexivity. Qed.

Example update_task_failure_after_commit_keeps_change :
  update_task Demo.env_third_trip_fails "u1" "a1" (Some "buy oat milk") None None None
              Demo.session =
    (Ok [("success", VBool false);
         ("error", VStr "server closed the connection unexpectedly");
         ("message",
          VStr "Failed to update task: server closed the connection unexpectedly")],
     mkSession
       [mkTask "a1" "u1" "buy oat milk" "" false "medium" None 1600000000 1700000000;
        Demo.report; Demo.call_mum]
       [] 0 1 3).
Proof. vm_compute. reflexivity. Qed.

Lemma mutations_are_all_or_nothing_witness :
  (table (complete_task Demo.env_third_trip_fails "u1" "a1" Demo.session).2
     = table Demo.session ∨
   ∃ t, head (filter (owned_by "u1" "a1") (table Demo.session)) = Some t ∧
        table (complete_task Demo.env_third_trip_fails "u1" "a1" Demo.session).2
          = replace_row (completed_task Demo.env_third_trip_fails Demo.session t)
                        (table Demo.session)) ∧
  table (delete_task Demo.env_second_trip_fails "u1" "a1" Demo.session).2
    = table Demo.session.
Proof.
  destruct (mutations_are_all_or_nothing Demo.env_third_trip_fails "u1" "a1"
              None None None None Demo.session eq_refl) as (Hcomplete & _ & _).
  destruct (mutations_are_all_or_nothing Demo.env_second_trip_fails "u1" "a1"
              None None None None Demo.session eq_refl) as (_ & _ & Hdelete).
  split.
  - apply (Hcomplete
             (failed "complete task" (Exc "server closed the connection unexpectedly"))).
    vm_compute. reflexivity.
  - apply (Hdelete
             (failed "delete task" (Exc "server closed the connection unexpectedly"))).
    + vm_compute. reflexivity.
    + reflexivity.
Defined.

Lemma add_task_all_or_nothing_witness :
  (table (add_task Demo.env_second_trip_fails "u1" "pay rent" None None None
            Demo.session).2 = table Demo.session ∨
   table (add_task Demo.env_second_trip_fails "u1" "pay rent" None None None
            Demo.session).2
     = table Demo.session
       ++ [new_task Demo.env_second_trip_fails "u1" "pay rent" None None None
                    Demo.session]) ∧
  pending (add_task Demo.env_second_trip_fails "u1" "pay rent" None None None
             Demo.session).2 = [].
Proof.
  destruct (add_task_all_or_nothing Demo.env_second_trip_fails "u1" "pay rent" None None
              None Demo.session
              (failed "add task" (Exc "server closed the connection unexpectedly"))
              (add_task Demo.env_second_trip_fails "u1" "pay rent" None None None
                 Demo.session).2) as (Hrows & Hpending & _).
  - reflexivity.
  - vm_compute. reflexivity.
  - split; [exact Hrows|exact Hpending].
Defined.

End MoreTaskSamples.

Section MoreChatSamples.
Import ChatEndpoint ChatTurn.


Lemma nonblank_message_reaches_resolution_witness :
  ∃ rest,
    trace (chat ChatDemo.confirming "u1" (mkChatRequest (Some 0) " buy milk ")
                ChatDemo.empty_world).2 = [] ++ CreateConversation "u1" :: rest.
Proof.
  apply (nonblank_message_reaches_resolution ChatDemo.confirming "u1"
           (mkChatRequest (Some 0) " buy milk ") ChatDemo.empty_world).
  reflexivity.
Defined.

Lemma unresolved_conversation_stores_nothing_witness :
  chat ChatDemo.confirming "u1" (mkChatRequest (Some 7) "buy milk") ChatDemo.empty_world =
    (Raised (mkHTTPException 404 "Conversation not found"),
     mkWorld (ChatDemo.mkChatStore [] [] 1) [GetConversation 7 "u1"]).
Proof.
  apply (unresolved_conversation_stores_nothing ChatDemo.confirming "u1"
           (mkChatRequest (Some 7) "buy milk") ChatDemo.empty_world 7
           (ChatbotError "ConversationNotFoundError" "Conversation not found")
           (ChatDemo.mkChatStore [] [] 1)).
  - reflexivity.
  - reflexivity.
  - lia.
  - reflexivity.
Defined.

End MoreChatSamples.

Section ConversationSamples.
Import ConversationEndpoints.
Import ChatEndpoint (Value, Throw, ChatbotError, OtherError, mkHTTPException).

Lemma list_conversations_counts_each_witness :
  ∃ convs st counts,
    ChatService.get_user_conversations ConversationDemo.service "u1" 50
      (store ConversationDemo.world) = (Value convs, st) ∧
    fetch_counts ConversationDemo.service convs st
      = Some (counts, store ConversationDemo.world) ∧
    zip_with conversation_response convs counts =
      [ConversationResponse.mk 1 "u1" 100 130 2;
       ConversationResponse.mk 3 "u1" 120 120 0].
Proof.
  destruct (list_conversations_counts_each ConversationDemo.service "u1" 50
              ConversationDemo.world
              [ConversationResponse.mk 1 "u1" 100 130 2;
               ConversationResponse.mk 3 "u1" 120 120 0]
              (list_conversations ConversationDemo.service "u1" 50
                 ConversationDemo.world).2)
    as (convs & st & counts & Hlist & Hcounts & Hresp & _).
  - vm_compute. reflexivity.
  - exists convs, st, counts. split_and!; [exact Hlist|exact Hcounts|by rewrite <- Hresp].
Defined.

Lemma list_conversations_all_or_nothing_witness :
  list_conversations ConversationDemo.flaky_service "u1" 50 ConversationDemo.world =
    (Raised (mkHTTPException 500 "An error occurred: connection reset"),
     mkWorld (store ConversationDemo.world)
       [GetUserConversations "u1" 50;
        GetConversationMessages 1 1000;
        GetConversationMessages 3 1000;
        LogError "list_conversations_error" "connection reset" [("user_id", VStr "u1")]]).
Proof.
  apply (list_conversations_all_or_nothing ConversationDemo.flaky_service "u1" 50
           ConversationDemo.world
           [Conversation.mk 1 "u1" 100 130; Conversation.mk 3 "u1" 120 120]
           (store ConversationDemo.world) 1%nat (Conversation.mk 3 "u1" 120 120)
           [2] (store ConversationDemo.world) (OtherError "connection reset")
           (store ConversationDemo.world)).
  - reflexivity.
  - reflexivity.
  - reflexivity.
  - reflexivity.
Defined.

Lemma messages_need_ownership_check_witness :
  get_conversation_messages ConversationDemo.service "u1" 2 100 ConversationDemo.world =
    (Raised (mkHTTPException 404 "Conversation not found"),
     mkWorld (store ConversationDemo.world) [GetConversation 2 "u1"]).
Proof.
  destruct (messages_need_ownership_check ConversationDemo.service "u1" 2 100
              ConversationDemo.world) as [Hdenied _].
  apply (Hdenied (ChatbotError "ConversationNotFoundError" "Conversation not found")
                 (store ConversationDemo.world)).
  reflexivity.
Defined.

(** The three routes on the sample store. *)
Example list_conversations_sample :
  (list_conversations ConversationDemo.service "u1" 50 ConversationDemo.world).1 =
    Returned [ConversationResponse.mk 1 "u1" 100 130 2;
              ConversationResponse.mk 3 "u1" 120 120 0].
Proof. vm_compute. reflexivity. Qed.

Example delete_conversation_sample :
  delete_conversation ConversationDemo.service "u1" 1 ConversationDemo.world =
    (Returned (),
     mkWorld
       (ConversationDemo.mkStore
          [Conversation.mk 2 "u2" 110 110; Conversation.mk 3 "u1" 120 120] [])
       [DeleteConversation 1 "u1"; LogChatRequest "u1" 1 "Conversation deleted"]).
Proof. vm_compute. reflexivity. Qed.

End ConversationSamples.
